(** * pdf2img: PDF first page to PNG, engine acquisition and render pipeline

    A shallow embedding of [src/app/lib/pdf2img.ts] and the properties of
    its three functions [loadPdfJs], [convertPdfToImage],
    [convertPdfToImageSimple] (with its helper [performConversion]).

    The program is asynchronous JavaScript.  An [async] function is
    embedded as a state transformer that yields the final settlement of
    the promise it returns: fulfilled with a value, rejected with an
    error, or pending for ever.  The module variables, the [window]
    binding and the scripts appended to [document.head] are the explicit
    state; the answers of the host platform and of the PDF engine (the
    external collaborators) are read from a [World] record, one field per
    call site.  Console output, and the sizing and smoothing settings of
    the canvas, change nothing that the functions return or share, and
    are left out. *)

From Stdlib Require Import String Ascii List Bool Arith Lia.
From stdpp Require Import base tactics option gmap.
Import ListNotations.

Local Open Scope string_scope.
Local Open Scope list_scope.

(* ===================================================================== *)
(** ** Strings: the three string operations the source uses *)
(* ===================================================================== *)

Module Str.

(** File names are JavaScript strings.  They are embedded as [string];
    case mapping is the ASCII one, which is all that [toLowerCase] and
    the [i] flag of a regular expression can do to the four characters
    of [".pdf"]. *)

Definition is_upper (c : ascii) : bool :=
  (65 <=? nat_of_ascii c)%nat && (nat_of_ascii c <=? 90)%nat.

Definition is_lower (c : ascii) : bool :=
  (97 <=? nat_of_ascii c)%nat && (nat_of_ascii c <=? 122)%nat.

Definition lower_char (c : ascii) : ascii :=
  if is_upper c then ascii_of_nat (nat_of_ascii c + 32) else c.

Definition upper_char (c : ascii) : ascii :=
  if is_lower c then ascii_of_nat (nat_of_ascii c - 32) else c.

(** [s.toLowerCase()] *)
Fixpoint toLowerCase (s : string) : string :=
  match s with
  | EmptyString => EmptyString
  | String c s' => String (lower_char c) (toLowerCase s')
  end.

(** [s.endsWith(suffix)] *)
Definition endsWith (s suffix : string) : bool :=
  let n := String.length s in
  let m := String.length suffix in
  (m <=? n)%nat && String.eqb (substring (n - m) m s) suffix.

(** Character comparison under the [i] flag: both sides are
    canonicalized, which upper-cases them. *)
Definition canonicalize (c : ascii) : ascii := upper_char c.

Definition char_matches_ci (p c : ascii) : bool :=
  Ascii.eqb (canonicalize p) (canonicalize c).

(** Does the whole of [s] match the literal characters [pat], ignoring
    case?  This is a match of [/<pat>$/i] that starts at the first
    character of [s]: the [$] (no [m] flag) wants the end of input
    right after the literals. *)
Fixpoint matches_to_end (pat : list ascii) (s : string) : bool :=
  match pat, s with
  | [], EmptyString => true
  | p :: pat', String c s' => char_matches_ci p c && matches_to_end pat' s'
  | _, _ => false
  end.

(** [s.replace(/<pat>$/i, "")]: the regular expression is tried at
    every start index from the left, and the first match is replaced by
    the empty string. *)
Fixpoint replace_suffix_ci (pat : list ascii) (s : string) : string :=
  if matches_to_end pat s then EmptyString
  else match s with
       | EmptyString => EmptyString
       | String c s' => String c (replace_suffix_ci pat s')
       end.

(** The literals of [/\.pdf$/i]. *)
Definition dot_pdf : list ascii := ["."; "p"; "d"; "f"]%char.

End Str.

(* ===================================================================== *)
(** ** Data model *)
(* ===================================================================== *)

(** A thrown or rejected JavaScript value, as far as the source looks at
    it: whether it is [undefined] or [null] (reading a property of
    either throws), [err instanceof Error], [err.message] (absent on
    values such as the [Event] a script's [onerror] receives) and
    [String(err)]. *)
Record JsError := {
  err_is_nullish : bool;
  err_is_Error : bool;
  err_message : option string;
  err_text : string
}.

(** [new Error(msg)] *)
Definition new_Error (msg : string) : JsError :=
  {| err_is_nullish := false; err_is_Error := true; err_message := Some msg;
     err_text := "Error: " ++ msg |}.

(** What the runtime throws when a property of [undefined] is read. *)
Definition TypeError (msg : string) : JsError :=
  {| err_is_nullish := false; err_is_Error := true; err_message := Some msg;
     err_text := "TypeError: " ++ msg |}.

(** What the runtime throws when an undeclared global is read. *)
Definition ReferenceError (msg : string) : JsError :=
  {| err_is_nullish := false; err_is_Error := true; err_message := Some msg;
     err_text := "ReferenceError: " ++ msg |}.

(** What the runtime throws when [message] is read of [undefined] or of
    [null]. *)
Definition reading_message_of (v : JsError) : JsError :=
  TypeError ("Cannot read properties of " ++ err_text v ++ " (reading 'message')").

(** [`${err.message}`]: an absent property prints as [undefined]. *)
Definition message_text (e : JsError) : string :=
  match err_message e with
  | Some m => m
  | None => "undefined"
  end.

Definition Blob := list Byte.byte.

(** A [File]: the name and media type the source reads, and its bytes. *)
Record File := {
  file_name : string;
  file_type : string;
  file_bits : Blob
}.

(** The argument of [convertPdfToImage] at run time: the function tests
    [!file || !(file instanceof File)] itself. *)
Inductive Input :=
| NotAFile
| AFile (f : File).

(** [interface PdfConversionResult] *)
Record PdfConversionResult := {
  imageUrl : string;
  file : option File;
  error : option string
}.

(** A loaded PDF.js library object.  Objects are compared by identity;
    [engine_version] is its [version] property. *)
Record Engine := {
  engine_id : nat;
  engine_version : option string
}.

Record Doc := { doc_id : nat; numPages : nat }.
Record Page := { page_id : nat }.
Record Viewport := { vp_width : nat; vp_height : nat }.
Record Context2D := { ctx_id : nat }.

(** The settlement of a promise, and as well the completion of a piece of
    code: a value, a thrown or rejected error, or never. *)
Inductive Outcome (A : Type) :=
| Fulfilled (a : A)
| Rejected (e : JsError)
| Pending.
Arguments Fulfilled {A} a.
Arguments Rejected {A} e.
Arguments Pending {A}.

(** What becomes of a [<script>] element the code builds and appends. *)
Inductive ScriptAttempt :=
| DomFault (e : JsError)
    (** building or appending the element throws; nothing is appended *)
| ScriptLoaded (defines : option Engine)
    (** the load event fires; the script has bound [window.pdfjsLib] to
        [defines], or has bound nothing *)
| ScriptFailed (ev : JsError)
    (** the error event fires, with this event object *)
| ScriptSilent.
    (** neither event ever fires *)

(** An acquisition attempt that is observable from outside. *)
Inductive AcqEvent :=
| ImportModule (specifier : string)
| InjectScript (src : string).

(** [window]: only its [pdfjsLib] binding matters. *)
Record Window := { win_pdfjsLib : option Engine }.

(** The mutable state the three functions share. *)
Record State := {
  pdfjsLib : option Engine;                (* let pdfjsLib: any = null *)
  isLoading : bool;                        (* let isLoading = false *)
  loadPromise : option (Outcome Engine);   (* let loadPromise = null *)
  window : option Window;                  (* None: typeof window === 'undefined' *)
  workerSrc : gmap nat string;             (* GlobalWorkerOptions.workerSrc, per engine object *)
  events : list AcqEvent                   (* acquisition attempts so far, oldest first *)
}.

(** The answers of the collaborators.  A call that is awaited inside a
    [try] block takes the same handler whether it throws or its promise
    rejects, so one [Outcome] stands for both.  The source itself never
    binds [window.pdfjsLib]; the scripts it injects do, and the imported
    module may or may not ([importBindsGlobal]). *)
Record World := {
  cdnScript : ScriptAttempt;        (* the script of lines 115-124 *)
  importModule : Outcome Engine;    (* import("pdfjs-dist/build/pdf.mjs"), line 21 *)
  importBindsGlobal : bool;         (* does evaluating the module bind window.pdfjsLib? *)
  fallbackScript : ScriptAttempt;   (* the script of lines 48-60 *)
  simpleScript : ScriptAttempt;     (* the script of lines 280-301 *)
  arrayBuffer : File -> Outcome Blob;
  getDocument : Engine -> Blob -> Outcome Doc;
  getPage : Doc -> nat -> Outcome Page;
  getViewport : Page -> nat -> Outcome Viewport;
  getContext : Outcome (option Context2D);   (* createElement("canvas").getContext("2d") *)
  render : Page -> Context2D -> Viewport -> Outcome unit;
  toBlob : Context2D -> string -> nat -> Outcome (option Blob);
    (* canvas.toBlob(callback, type, quality in percent).  Rejected:
       toBlob throws; Fulfilled: the callback runs with the blob, or
       with null; Pending: the callback never runs *)
  newFileFault : option JsError;    (* new File(...) throws this *)
  createObjectURL : Blob -> Outcome string
    (* the unique part of the URL; the URL itself starts with blob: *)
}.

(* ===================================================================== *)
(** ** Asynchronous code as state transformers *)
(* ===================================================================== *)

(** A piece of (possibly asynchronous) code: from the state it starts
    in, how it completes and the state it leaves.  State changes made
    before a throw or a suspension stay. *)
Definition M (A : Type) : Type := State -> Outcome A * State.

Definition ret {A} (a : A) : M A := fun st => (Fulfilled a, st).

(** [throw e], and [reject(e)] inside a promise executor *)
Definition throw {A} (e : JsError) : M A := fun st => (Rejected e, st).

(** Suspended on something that never happens. *)
Definition hang {A} : M A := fun st => (Pending, st).

Definition bind {A B} (m : M A) (k : A -> M B) : M B :=
  fun st =>
    match m st with
    | (Fulfilled a, st') => k a st'
    | (Rejected e, st') => (Rejected e, st')
    | (Pending, st') => (Pending, st')
    end.

(** [try { m } catch (e) { h e }]: a suspension is not caught. *)
Definition try_catch {A} (m : M A) (h : JsError -> M A) : M A :=
  fun st =>
    match m st with
    | (Rejected e, st') => h e st'
    | r => r
    end.

(** [await p] *)
Definition await {A} (p : Outcome A) : M A := fun st => (p, st).

(** The body of an event handler whose faults nobody handles: if it
    throws, the promise it was to settle stays pending. *)
Definition unhandled {A} (m : M A) : M A :=
  fun st =>
    match m st with
    | (Rejected _, st') => (Pending, st')
    | r => r
    end.

Definition get : M State := fun st => (Fulfilled st, st).

Definition modify (f : State -> State) : M unit := fun st => (Fulfilled tt, f st).

Notation "x <- c1 ;; c2" := (bind c1 (fun x => c2))
  (at level 100, c1 at next level, right associativity).
Notation "c1 ;; c2" := (bind c1 (fun _ => c2))
  (at level 100, right associativity).

(** *** Assignments *)

Definition set_pdfjsLib (v : option Engine) (st : State) : State :=
  {| pdfjsLib := v; isLoading := isLoading st; loadPromise := loadPromise st;
     window := window st; workerSrc := workerSrc st; events := events st |}.

Definition set_isLoading (v : bool) (st : State) : State :=
  {| pdfjsLib := pdfjsLib st; isLoading := v; loadPromise := loadPromise st;
     window := window st; workerSrc := workerSrc st; events := events st |}.

Definition set_loadPromise (v : option (Outcome Engine)) (st : State) : State :=
  {| pdfjsLib := pdfjsLib st; isLoading := isLoading st; loadPromise := v;
     window := window st; workerSrc := workerSrc st; events := events st |}.

(** [window.pdfjsLib = lib], as a script does when it is evaluated; no
    effect where there is no [window]. *)
Definition bind_global (lib : Engine) (st : State) : State :=
  {| pdfjsLib := pdfjsLib st; isLoading := isLoading st; loadPromise := loadPromise st;
     window := match window st with
               | Some _ => Some {| win_pdfjsLib := Some lib |}
               | None => None
               end;
     workerSrc := workerSrc st; events := events st |}.

(** [lib.GlobalWorkerOptions.workerSrc = url] *)
Definition set_workerSrc (lib : Engine) (url : string) (st : State) : State :=
  {| pdfjsLib := pdfjsLib st; isLoading := isLoading st; loadPromise := loadPromise st;
     window := window st; workerSrc := <[engine_id lib := url]> (workerSrc st);
     events := events st |}.

Definition record_event (ev : AcqEvent) (st : State) : State :=
  {| pdfjsLib := pdfjsLib st; isLoading := isLoading st; loadPromise := loadPromise st;
     window := window st; workerSrc := workerSrc st; events := events st ++ [ev] |}.

(** [(window as any).pdfjsLib] where [window] exists *)
Definition global_lib (st : State) : option Engine :=
  match window st with
  | Some win => win_pdfjsLib win
  | None => None
  end.

(** The state a page starts in: the module just evaluated, nothing loaded. *)
Definition fresh_page : State :=
  {| pdfjsLib := None; isLoading := false; loadPromise := None;
     window := Some {| win_pdfjsLib := None |}; workerSrc := ∅; events := [] |}.

(** The evaluation of a loaded script: it binds the global, or not. *)
Definition script_evaluated (defines : option Engine) : M unit :=
  match defines with
  | Some lib => modify (bind_global lib)
  | None => ret tt
  end.

(* ===================================================================== *)
(** ** The source *)
(* ===================================================================== *)

Definition pinned_version : string := "3.11.174".
Definition module_specifier : string := "pdfjs-dist/build/pdf.mjs".

Definition jsdelivr_script (version : string) : string :=
  "https://cdn.jsdelivr.net/npm/pdfjs-dist@" ++ version ++ "/build/pdf.min.js".
Definition jsdelivr_worker (version : string) : string :=
  "https://cdn.jsdelivr.net/npm/pdfjs-dist@" ++ version ++ "/build/pdf.worker.min.js".
Definition cdnjs_script : string :=
  "https://cdnjs.cloudflare.com/ajax/libs/pdf.js/3.11.174/pdf.min.js".
Definition cdnjs_worker : string :=
  "https://cdnjs.cloudflare.com/ajax/libs/pdf.js/3.11.174/pdf.worker.min.js".

(** [lib.version || '3.11.174'] *)
Definition version_or_default (lib : Engine) : string :=
  match engine_version lib with
  | Some v => if String.eqb v "" then pinned_version else v
  | None => pinned_version
  end.

(** *** [loadPdfJs], lines 11-71 *)

(** The executor of the promise of line 17.  Its completion is the
    settlement of that promise: [ret] is [resolve], [throw] is [reject],
    [hang] is a path on which neither is ever called. *)
Definition loadPdfJs_executor (w : World) : M Engine :=
  try_catch
    (modify (record_event (ImportModule module_specifier)) ;;
     lib <- await (importModule w) ;;
     (if importBindsGlobal w then modify (bind_global lib) else ret tt) ;;
     let version := version_or_default lib in
     let workerUrl := jsdelivr_worker version in
     modify (set_workerSrc lib workerUrl) ;;
     modify (set_pdfjsLib (Some lib)) ;;
     modify (set_isLoading false) ;;
     ret lib)
    (fun error =>
       st <- get ;;
       match window st with
       | None => hang
       | Some _ =>
           match fallbackScript w with
           | DomFault fallbackError =>
               modify (set_isLoading false) ;;
               throw error
           | ScriptLoaded defines =>
               modify (record_event (InjectScript (jsdelivr_script pinned_version))) ;;
               script_evaluated defines ;;
               st' <- get ;;
               match global_lib st' with
               | Some lib =>
                   modify (set_pdfjsLib (Some lib)) ;;
                   modify (set_workerSrc lib (jsdelivr_worker pinned_version)) ;;
                   modify (set_isLoading false) ;;
                   ret lib
               | None => hang
               end
           | ScriptFailed ev =>
               modify (record_event (InjectScript (jsdelivr_script pinned_version))) ;;
               throw ev
           | ScriptSilent =>
               modify (record_event (InjectScript (jsdelivr_script pinned_version))) ;;
               hang
           end
       end).

(** [loadPromise] holds the promise; the embedding keeps its settlement
    there, so that a later reader of the variable awaits the very same
    promise. *)
Definition loadPdfJs (w : World) : M Engine :=
  fun st =>
    match pdfjsLib st with
    | Some lib => (Fulfilled lib, st)
    | None =>
        match loadPromise st with
        | Some p => (p, st)
        | None =>
            let '(p, st') := loadPdfJs_executor w (set_isLoading true st) in
            (p, set_loadPromise (Some p) st')
        end
    end.

(** *** What both entry points share *)

Definition failure (msg : string) : PdfConversionResult :=
  {| imageUrl := ""; file := None; error := Some msg |}.

(** What a [try] block hands to [return]: a result, or the promise of
    one.  A promise that is returned without [await] settles the call
    after the [try] block is left, so its rejection is not caught. *)
Inductive Returned :=
| Return (r : PdfConversionResult)
| ReturnPromise (p : Outcome PdfConversionResult).

Definition settle (r : Returned) : M PdfConversionResult :=
  match r with
  | Return res => ret res
  | ReturnPromise p => await p
  end.

(** [new File([blob], `${originalName}.png`, { type: "image/png" })]
    with [originalName = file.name.replace(/\.pdf$/i, "")] *)
Definition png_file (f : File) (blob : Blob) : File :=
  let originalName := Str.replace_suffix_ci Str.dot_pdf (file_name f) in
  {| file_name := originalName ++ ".png"; file_type := "image/png"; file_bits := blob |}.

(** [URL.createObjectURL] returns a blob URL. *)
Definition object_url (unique : string) : string := "blob:" ++ unique.

(** *** [convertPdfToImage], lines 74-261 *)

(** The promise awaited at line 114. *)
Definition cdn_script_promise (w : World) : M Engine :=
  match cdnScript w with
  | DomFault e => throw e
  | ScriptLoaded defines =>
      modify (record_event (InjectScript (jsdelivr_script pinned_version))) ;;
      script_evaluated defines ;;
      unhandled
        (st <- get ;;
         match global_lib st with
         | Some lib =>
             modify (set_workerSrc lib (jsdelivr_worker pinned_version)) ;;
             ret lib
         | None =>
             throw (TypeError
               "Cannot read properties of undefined (reading 'GlobalWorkerOptions')")
         end)
  | ScriptFailed ev =>
      modify (record_event (InjectScript (jsdelivr_script pinned_version))) ;;
      throw ev
  | ScriptSilent =>
      modify (record_event (InjectScript (jsdelivr_script pinned_version))) ;;
      hang
  end.

(** Lines 102-137: what [lib] holds afterwards ([None]: undefined). *)
Definition acquire_engine (w : World) : M (option Engine) :=
  try_catch
    (st <- get ;;
     match window st with
     | None => ret None
     | Some win =>
         match win_pdfjsLib win with
         | Some lib => ret (Some lib)
         | None => lib <- cdn_script_promise w ;; ret (Some lib)
         end
     end)
    (fun cdnError =>
       try_catch
         (lib <- loadPdfJs w ;; ret (Some lib))
         (fun localError =>
            if err_is_nullish localError
            then throw (reading_message_of localError)
            else throw (new_Error ("Failed to load PDF.js: " ++ message_text localError)))).

(** The promise of lines 204-243. *)
Definition blob_promise (w : World) (f : File) (canvas : Context2D)
  : Outcome PdfConversionResult :=
  match toBlob w canvas "image/png" 95 with
  | Rejected e => Rejected e
  | Pending => Pending
  | Fulfilled None => Fulfilled (failure "Failed to create image from canvas")
  | Fulfilled (Some blob) =>
      match newFileFault w with
      | Some fileError =>
          Fulfilled (failure ("Failed to create image file: " ++ err_text fileError))
      | None =>
          match createObjectURL w blob with
          | Fulfilled unique =>
              Fulfilled {| imageUrl := object_url unique;
                           file := Some (png_file f blob);
                           error := None |}
          | Rejected fileError =>
              Fulfilled (failure ("Failed to create image file: " ++ err_text fileError))
          | Pending => Pending
          end
      end
  end.

(** Lines 147-243, inside the outer [try]. *)
Definition render_first_page (w : World) (f : File) (lib : Engine) : M Returned :=
  arrayBuffer <- await (arrayBuffer w f) ;;
  parsed <- try_catch
              (pdf <- await (getDocument w lib arrayBuffer) ;; ret (inr pdf))
              (fun pdfError =>
                 ret (inl (failure
                   "Failed to parse PDF file. It may be corrupted or password protected."))) ;;
  match parsed with
  | inl res => ret (Return res)
  | inr pdf =>
      page <- await (getPage w pdf 1) ;;
      viewport <- await (getViewport w page 2) ;;
      context <- await (getContext w) ;;
      match context with
      | None => ret (Return (failure "Canvas context is not available"))
      | Some context =>
          await (render w page context viewport) ;;
          ret (ReturnPromise (blob_promise w f context))
      end
  end.

(** [file.type === 'application/pdf' || file.name.toLowerCase().endsWith('.pdf')] *)
Definition isPdf (f : File) : bool :=
  String.eqb (file_type f) "application/pdf"
  || Str.endsWith (Str.toLowerCase (file_name f)) ".pdf".

(** The message built in the [catch] of lines 245-260. *)
Definition conversion_error_message (err : JsError) : string :=
  "Failed to convert PDF"
  ++ (if err_is_Error err then ": " ++ message_text err else ": " ++ err_text err).

Definition convertPdfToImage (input : Input) (w : World) : M PdfConversionResult :=
  returned <-
    try_catch
      (match input with
       | NotAFile => ret (Return (failure "Invalid file provided"))
       | AFile f =>
           if isPdf f then
             lib <- acquire_engine w ;;
             match lib with
             | None => ret (Return (failure "PDF.js library failed to load"))
             | Some lib => render_first_page w f lib
             end
           else ret (Return (failure "File is not a PDF"))
       end)
      (fun err => ret (Return (failure (conversion_error_message err)))) ;;
  settle returned.

(** *** [performConversion], lines 317-382 *)

(** The promise of lines 350-374: its callback has no [try]. *)
Definition blob_promise_simple (w : World) (f : File) (canvas : Context2D)
  : Outcome PdfConversionResult :=
  match toBlob w canvas "image/png" 100 with
  | Rejected e => Rejected e
  | Pending => Pending
  | Fulfilled (Some blob) =>
      match newFileFault w with
      | Some _ => Pending
      | None =>
          match createObjectURL w blob with
          | Fulfilled unique =>
              Fulfilled {| imageUrl := object_url unique;
                           file := Some (png_file f blob);
                           error := None |}
          | _ => Pending
          end
      end
  | Fulfilled None => Fulfilled (failure "Failed to create image")
  end.

Definition performConversion (f : File) (w : World) : M PdfConversionResult :=
  st <- get ;;
  match window st with
  | None => throw (ReferenceError "window is not defined")
  | Some win =>
      match win_pdfjsLib win with
      | None => ret (failure "PDF.js not loaded")
      | Some lib =>
          returned <-
            try_catch
              (arrayBuffer <- await (arrayBuffer w f) ;;
               pdf <- await (getDocument w lib arrayBuffer) ;;
               page <- await (getPage w pdf 1) ;;
               viewport <- await (getViewport w page 2) ;;
               context <- await (getContext w) ;;
               match context with
               | None => ret (Return (failure "Canvas context not available"))
               | Some context =>
                   await (render w page context viewport) ;;
                   ret (ReturnPromise (blob_promise_simple w f context))
               end)
              (fun err => ret (Return (failure ("Conversion error: " ++ err_text err)))) ;;
          settle returned
      end
  end.

(** *** [convertPdfToImageSimple], lines 264-315 *)

(** The completion is the settlement of the promise of line 267; that
    promise has no [reject]. *)
Definition convertPdfToImageSimple (f : File) (w : World) : M PdfConversionResult :=
  try_catch
    (st <- get ;;
     match window st with
     | None => ret (failure "Window is not available")
     | Some win =>
         match win_pdfjsLib win with
         | None =>
             match simpleScript w with
             | DomFault e => throw e
             | ScriptLoaded defines =>
                 modify (record_event (InjectScript cdnjs_script)) ;;
                 script_evaluated defines ;;
                 unhandled
                   (st' <- get ;;
                    match global_lib st' with
                    | Some lib =>
                        modify (set_workerSrc lib cdnjs_worker) ;;
                        performConversion f w
                    | None =>
                        throw (TypeError
                          "Cannot read properties of undefined (reading 'GlobalWorkerOptions')")
                    end)
             | ScriptFailed _ =>
                 modify (record_event (InjectScript cdnjs_script)) ;;
                 ret (failure "Failed to load PDF.js library")
             | ScriptSilent =>
                 modify (record_event (InjectScript cdnjs_script)) ;;
                 hang
             end
         | Some _ => performConversion f w
         end
     end)
    (fun err => ret (failure ("Conversion failed: " ++ err_text err))).

(* ===================================================================== *)
(** ** Vocabulary of the properties *)
(* ===================================================================== *)

(** What the specification calls "ends in [.pdf], case-insensitively". *)
Definition has_pdf_suffix (name : string) : Prop :=
  exists base ext, name = (base ++ ext)%string /\ Str.toLowerCase ext = ".pdf".

(** [yields m Q]: whenever [m] completes with a value, [Q] holds of it. *)
Definition yields {A} (m : M A) (Q : A -> Prop) : Prop :=
  forall st a st', m st = (Fulfilled a, st') -> Q a.

(** [keeps_state m]: [m] leaves the shared state as it found it. *)
Definition keeps_state {A} (m : M A) : Prop :=
  forall st, snd (m st) = st.

(** Success: a non-empty URL, a file, no error. *)
Definition is_success (r : PdfConversionResult) : Prop :=
  imageUrl r <> "" /\ file r <> None /\ error r = None.

(** Failure: an error, the empty URL, no file. *)
Definition is_failure (r : PdfConversionResult) : Prop :=
  error r <> None /\ imageUrl r = "" /\ file r = None.

Definition exactly_one_shape (r : PdfConversionResult) : Prop :=
  (is_success r /\ ~ is_failure r) \/ (is_failure r /\ ~ is_success r).

(** The two records the source ever builds for a file [f]. *)
Inductive conversion_result (f : File) : PdfConversionResult -> Prop :=
| result_failure msg :
    conversion_result f (failure msg)
| result_success unique blob :
    conversion_result f
      {| imageUrl := object_url unique; file := Some (png_file f blob); error := None |}.

(** The same of what a [try] block returns, result or promise. *)
Definition returned_result (f : File) (r : Returned) : Prop :=
  match r with
  | Return res => conversion_result f res
  | ReturnPromise p => forall res, p = Fulfilled res -> conversion_result f res
  end.

(** The acquisition attempts of the source, as events. *)
Definition cdn_inject : AcqEvent := InjectScript (jsdelivr_script pinned_version).
Definition simple_inject : AcqEvent := InjectScript cdnjs_script.
Definition module_import : AcqEvent := ImportModule module_specifier.

Definition is_import (ev : AcqEvent) : bool :=
  match ev with
  | ImportModule _ => true
  | InjectScript _ => false
  end.

Definition is_injection (ev : AcqEvent) : bool :=
  match ev with
  | ImportModule _ => false
  | InjectScript _ => true
  end.

Definition count_imports (evs : list AcqEvent) : nat := length (filter is_import evs).
Definition count_injections (evs : list AcqEvent) : nat := length (filter is_injection evs).

(** The events a run added: those of [st'] beyond those of [st]. *)
Definition new_events (st st' : State) : list AcqEvent :=
  drop (length (events st)) (events st').

(** In a list of attempts, every script injection comes after a module
    import. *)
Definition import_precedes_injection (evs : list AcqEvent) : Prop :=
  forall before src after,
    evs = before ++ InjectScript src :: after ->
    exists specifier, In (ImportModule specifier) before.

(** A state between calls: a promise in [loadPromise] that is fulfilled
    has its engine in [pdfjsLib] (lines 34-36 and 52-56 set the variable
    before they resolve). *)
Definition quiescent (st : State) : Prop :=
  forall lib, loadPromise st = Some (Fulfilled lib) -> pdfjsLib st = Some lib.

(** [loadPdfJs] up to its first suspension, when no engine is cached and
    no promise is stored (lines 15-21, then 17 and 70): the flag is set,
    the import is under way, and [loadPromise] holds the new promise,
    here with the settlement [promise] it will come to. *)
Definition loadPdfJs_in_flight (promise : Outcome Engine) (st : State) : State :=
  set_loadPromise (Some promise)
    (record_event module_import (set_isLoading true st)).

(** *** Sample inputs and worlds *)

Definition pdf_type : string := "application/pdf".

Definition report_PDF : File :=
  {| file_name := "report.PDF"; file_type := ""; file_bits := [] |}.
Definition a_pdf_pdf : File :=
  {| file_name := "a.pdf.pdf"; file_type := pdf_type; file_bits := [] |}.
Definition doc_no_suffix : File :=
  {| file_name := "doc"; file_type := pdf_type; file_bits := [] |}.
Definition photo_jpg : File :=
  {| file_name := "photo.jpg"; file_type := "image/jpeg"; file_bits := [] |}.

Definition engine_cdn : Engine := {| engine_id := 1; engine_version := Some "3.11.174" |}.
Definition engine_module : Engine := {| engine_id := 2; engine_version := Some "4.0.379" |}.
Definition engine_cdnjs : Engine := {| engine_id := 3; engine_version := Some "3.11.174" |}.

(** The [Event] a failed script load hands to [onerror]. *)
Definition script_error_event : JsError :=
  {| err_is_nullish := false; err_is_Error := false; err_message := None;
     err_text := "[object Event]" |}.

Definition import_error : JsError :=
  TypeError "Failed to fetch dynamically imported module".

Definition invalid_pdf_error : JsError :=
  {| err_is_nullish := false; err_is_Error := true;
     err_message := Some "Invalid PDF structure.";
     err_text := "InvalidPDFException: Invalid PDF structure." |}.

Definition security_error : JsError :=
  {| err_is_nullish := false; err_is_Error := true;
     err_message := Some "The operation is insecure.";
     err_text := "SecurityError: The operation is insecure." |}.

Definition png_bytes : Blob := [Byte.x89; Byte.x50; Byte.x4e; Byte.x47].

(** A world in which the render pipeline works; the acquisition answers
    and the two answers of the pipeline that vary are arguments.
    Evaluating the imported module binds [window.pdfjsLib], as
    [pdfjs-dist/build/pdf.mjs] does. *)
Definition make_world (cdn : ScriptAttempt) (imported : Outcome Engine)
    (fallback simple : ScriptAttempt) (parsed : Outcome Doc)
    (encoded : Outcome (option Blob)) : World :=
  {| cdnScript := cdn;
     importModule := imported;
     importBindsGlobal := true;
     fallbackScript := fallback;
     simpleScript := simple;
     arrayBuffer := fun f => Fulfilled (file_bits f);
     getDocument := fun _ _ => parsed;
     getPage := fun _ _ => Fulfilled {| page_id := 1 |};
     getViewport := fun _ scale =>
       Fulfilled {| vp_width := 612 * scale; vp_height := 792 * scale |};
     getContext := Fulfilled (Some {| ctx_id := 1 |});
     render := fun _ _ _ => Fulfilled tt;
     toBlob := fun _ _ _ => encoded;
     newFileFault := None;
     createObjectURL := fun _ => Fulfilled "https://app.example/5f0c1d2e" |}.

Definition one_page : Outcome Doc := Fulfilled {| doc_id := 1; numPages := 1 |}.
Definition a_png : Outcome (option Blob) := Fulfilled (Some png_bytes).

(** Every script loads and binds its engine; the import works. *)
Definition world_ok : World :=
  make_world (ScriptLoaded (Some engine_cdn)) (Fulfilled engine_module)
    (ScriptLoaded (Some engine_cdn)) (ScriptLoaded (Some engine_cdnjs)) one_page a_png.

(** No script has fired yet. *)
Definition world_scripts_loading : World :=
  make_world ScriptSilent Pending ScriptSilent ScriptSilent one_page a_png.

(** The CDN is out of reach; the bundled module imports. *)
Definition world_cdn_down : World :=
  make_world (ScriptFailed script_error_event) (Fulfilled engine_module)
    (ScriptFailed script_error_event) (ScriptFailed script_error_event) one_page a_png.

(** Neither the CDN nor the module can be had. *)
Definition world_nothing_loads : World :=
  make_world (ScriptFailed script_error_event) (Rejected import_error)
    (ScriptFailed script_error_event) (ScriptFailed script_error_event) one_page a_png.

(** Every script loads, yet leaves [window.pdfjsLib] unbound (a content
    blocker serving an empty stand-in does this). *)
Definition world_scripts_bind_nothing : World :=
  make_world (ScriptLoaded None) (Rejected import_error)
    (ScriptLoaded None) (ScriptLoaded None) one_page a_png.

(** The CDN script fails and the import is rejected; the loader's own
    script then loads but binds nothing. *)
Definition world_fallback_binds_nothing : World :=
  make_world (ScriptFailed script_error_event) (Rejected import_error)
    (ScriptLoaded None) (ScriptLoaded None) one_page a_png.

(** [canvas.toBlob] throws. *)
Definition world_toBlob_throws : World :=
  make_world (ScriptLoaded (Some engine_cdn)) (Fulfilled engine_module)
    (ScriptLoaded (Some engine_cdn)) (ScriptLoaded (Some engine_cdnjs)) one_page
    (Rejected security_error).

(** The engine rejects the bytes: they are no PDF. *)
Definition world_not_a_pdf : World :=
  make_world (ScriptLoaded (Some engine_cdn)) (Fulfilled engine_module)
    (ScriptLoaded (Some engine_cdn)) (ScriptLoaded (Some engine_cdnjs))
    (Rejected invalid_pdf_error) a_png.

(** *** The claims of the specification that the source does not meet,
    as they are worded *)

Definition wrong_type_result : PdfConversionResult := failure "File is not a PDF".

(** "Returns the wrong-type failure without attempting any engine
    acquisition": the result, and no new event. *)
Definition refuses_wrong_type (run : M PdfConversionResult) (st : State) : Prop :=
  fst (run st) = Fulfilled wrong_type_result /\ new_events st (snd (run st)) = [].

(** "Either entry point" does so on every file that is no PDF by type
    or by name. *)
Definition wrong_type_claim (f : File) (w : World) (st : State) : Prop :=
  file_type f <> pdf_type ->
  ~ has_pdf_suffix (file_name f) ->
  refuses_wrong_type (convertPdfToImage (AFile f) w) st /\
  refuses_wrong_type (convertPdfToImageSimple f w) st.

(** "Module import first, then CDN script injection as the fallback". *)
Definition import_first_claim (input : Input) (w : World) (st : State) : Prop :=
  import_precedes_injection (new_events st (snd (convertPdfToImage input w st))).

(** "Exactly one acquisition strategy sequence executes" when the second
    call is issued in the state [mid] in which the first call, under
    [wA], waits for its acquisition. *)
Definition single_acquisition_claim (f : File) (wA wB : World) (st : State) : Prop :=
  let mid := snd (convertPdfToImage (AFile f) wA st) in
  let final := snd (convertPdfToImage (AFile f) wB mid) in
  global_lib st = None -> pdfjsLib st = None ->
  fst (convertPdfToImage (AFile f) wA st) = Pending ->
  count_injections (new_events st final) + count_imports (new_events st final) = 1.

(** *** Further vocabulary: messages, responsive collaborators *)

(** The literal messages of [convertPdfToImage] (lines 83, 95, 143, 159,
    182, 212). *)
Definition resilient_messages : list string :=
  [ "Invalid file provided";
    "File is not a PDF";
    "PDF.js library failed to load";
    "Failed to parse PDF file. It may be corrupted or password protected.";
    "Canvas context is not available";
    "Failed to create image from canvas" ].

(** A message [convertPdfToImage] can report: a literal one, the one of
    the outer [catch] (line 248-253), or the one of the [catch] in the
    [toBlob] callback (line 236). *)
Definition resilient_error (msg : string) : Prop :=
  In msg resilient_messages
  \/ (exists err, msg = conversion_error_message err)
  \/ (exists err, msg = ("Failed to create image file: " ++ err_text err)%string).

(** The literal messages of [convertPdfToImageSimple] and
    [performConversion] (lines 274, 297, 324, 341, 367). *)
Definition simple_messages : list string :=
  [ "Window is not available";
    "Failed to load PDF.js library";
    "PDF.js not loaded";
    "Canvas context not available";
    "Failed to create image" ].

Definition simple_error (msg : string) : Prop :=
  In msg simple_messages
  \/ (exists err, msg = ("Conversion failed: " ++ err_text err)%string)
  \/ (exists err, msg = ("Conversion error: " ++ err_text err)%string).

(** Every collaborator of the render pipeline answers: no call of the
    pipeline on file [f], encoding at [quality], is left pending. *)
Definition pipeline_answers (w : World) (f : File) (quality : nat) : Prop :=
  arrayBuffer w f <> Pending
  /\ (forall lib buf, getDocument w lib buf <> Pending)
  /\ (forall pdf, getPage w pdf 1 <> Pending)
  /\ (forall page, getViewport w page 2 <> Pending)
  /\ getContext w <> Pending
  /\ (forall page canvas viewport, render w page canvas viewport <> Pending)
  /\ (forall canvas, toBlob w canvas "image/png" quality <> Pending)
  /\ (forall blob, createObjectURL w blob <> Pending).

(** The stages a successful conversion has gone through, with engine
    [lib], encoding at [quality]: the bytes were read, the document was
    parsed, page 1 was fetched, its viewport taken at scale 2, a canvas
    context obtained, the page rendered, the canvas encoded as PNG into
    [blob], the file built and the URL made for that same blob. *)
Definition went_through (w : World) (f : File) (lib : Engine) (quality : nat)
    (r : PdfConversionResult) : Prop :=
  exists buf pdf page viewport canvas blob unique,
    arrayBuffer w f = Fulfilled buf
    /\ getDocument w lib buf = Fulfilled pdf
    /\ getPage w pdf 1 = Fulfilled page
    /\ getViewport w page 2 = Fulfilled viewport
    /\ getContext w = Fulfilled (Some canvas)
    /\ render w page canvas viewport = Fulfilled tt
    /\ toBlob w canvas "image/png" quality = Fulfilled (Some blob)
    /\ newFileFault w = None
    /\ createObjectURL w blob = Fulfilled unique
    /\ r = {| imageUrl := object_url unique;
              file := Some {| file_name :=
                                (Str.replace_suffix_ci Str.dot_pdf (file_name f) ++ ".png")%string;
                              file_type := "image/png";
                              file_bits := blob |};
              error := None |}.

(** The state of the module where it is evaluated outside a browser. *)
Definition outside_browser : State :=
  {| pdfjsLib := None; isLoading := false; loadPromise := None;
     window := None; workerSrc := ∅; events := [] |}.

(** A page on which some script has bound the engine already. *)
Definition page_with_engine : State := bind_global engine_cdn fresh_page.

(** An engine object that has no [version] property. *)
Definition engine_unversioned : Engine := {| engine_id := 4; engine_version := None |}.

(** *** Results that differ in the name of the output file only *)

Definition same_but_name (r r' : PdfConversionResult) : Prop :=
  imageUrl r = imageUrl r'
  /\ error r = error r'
  /\ match file r, file r' with
     | Some out, Some out' =>
         file_bits out = file_bits out' /\ file_type out = file_type out'
     | None, None => True
     | _, _ => False
     end.

Definition settles_alike (o o' : Outcome PdfConversionResult) : Prop :=
  match o, o' with
  | Fulfilled r, Fulfilled r' => same_but_name r r'
  | Rejected e, Rejected e' => e = e'
  | Pending, Pending => True
  | _, _ => False
  end.

(** *** Sessions *)

(** Where an engine is cached in [pdfjsLib], one is bound to
    [window.pdfjsLib] as well. *)
Definition engine_on_window (st : State) : Prop :=
  pdfjsLib st <> None -> global_lib st <> None.

(** The states of a page session: the fresh page, and what the two entry
    points leave behind, the imported module binding [window.pdfjsLib]
    when it is evaluated. *)
Inductive session_state : State -> Prop :=
| session_fresh :
    session_state fresh_page
| session_convert input w st :
    session_state st ->
    importBindsGlobal w = true ->
    session_state (snd (convertPdfToImage input w st))
| session_simple f w st :
    session_state st ->
    session_state (snd (convertPdfToImageSimple f w st)).

(** "The second call reuses the cached engine handle without re-running
    any strategy": after a successful first call, the second adds no
    attempt. *)
Definition reuse_claim (f : File) (w1 w2 : World) (st : State) : Prop :=
  let st1 := snd (convertPdfToImage (AFile f) w1 st) in
  let st2 := snd (convertPdfToImage (AFile f) w2 st1) in
  (exists r, fst (convertPdfToImage (AFile f) w1 st) = Fulfilled r /\ is_success r) ->
  new_events st1 st2 = [].




(* ===================================================================== *)
(** ** Facts about the string operations *)
(* ===================================================================== *)

Module StrFacts.
Import Str.
Local Open Scope string_scope.
#[local] Arguments String.append !_ _ / : simpl nomatch.

Lemma toLowerCase_length s : String.length (toLowerCase s) = String.length s.
Proof. induction s as [|c s IH]; simpl; [reflexivity | now rewrite IH]. Qed.

Lemma toLowerCase_app s t : toLowerCase (s ++ t) = toLowerCase s ++ toLowerCase t.
Proof. induction s as [|c s IH]; simpl; [reflexivity | now rewrite IH]. Qed.

Lemma append_length s t : String.length (s ++ t) = String.length s + String.length t.
Proof. induction s as [|c s IH]; simpl; [reflexivity | now rewrite IH]. Qed.

Lemma append_empty_r s : s ++ "" = s.
Proof. induction s as [|c s IH]; simpl; [reflexivity | now rewrite IH]. Qed.

Lemma append_assoc s t u : (s ++ t) ++ u = s ++ (t ++ u).
Proof. induction s as [|c s IH]; simpl; [reflexivity | now rewrite IH]. Qed.

(** A string splits at any position inside it. *)
Lemma split_at n s :
  n <= String.length s ->
  exists a b, s = a ++ b /\ String.length a = n.
Proof.
  revert s; induction n as [|n IH]; intros s Hn.
  - exists "", s. split; reflexivity.
  - destruct s as [|c s]; simpl in Hn; [lia|].
    destruct (IH s) as (a & b & -> & Hlen); [lia|].
    exists (String c a), b. simpl. split; [reflexivity | now rewrite Hlen].
Qed.

Lemma append_inj_length a b a' b' :
  a ++ b = a' ++ b' -> String.length a = String.length a' -> a = a' /\ b = b'.
Proof.
  revert a'; induction a as [|c a IH]; intros [|c' a'] Heq Hlen;
    simpl in *; try discriminate; [easy|].
  injection Heq as -> Heq. destruct (IH a' Heq) as [-> ->]; [lia | easy].
Qed.

Lemma substring_all s : substring 0 (String.length s) s = s.
Proof. induction s as [|c s IH]; simpl; [reflexivity | now rewrite IH]. Qed.

Lemma substring_skip a b :
  substring (String.length a) (String.length b) (a ++ b) = b.
Proof. induction a as [|c a IH]; simpl; [apply substring_all | exact IH]. Qed.

(** [endsWith] is what its name says. *)
Lemma endsWith_spec s suffix :
  endsWith s suffix = true <-> exists base, s = base ++ suffix.
Proof.
  unfold endsWith. rewrite andb_true_iff, Nat.leb_le, String.eqb_eq. split.
  - intros [Hle Hsub].
    destruct (split_at (String.length s - String.length suffix) s) as (a & b & -> & Ha);
      [lia|].
    exists a. f_equal. rewrite append_length in Hsub, Ha, Hle.
    assert (Hb : String.length b = String.length suffix) by lia.
    replace (String.length a + String.length b - String.length suffix)
      with (String.length a) in Hsub by lia.
    rewrite <- Hb in Hsub. now rewrite substring_skip in Hsub.
  - intros [base ->]. rewrite append_length. split; [lia|].
    replace (String.length base + String.length suffix - String.length suffix)
      with (String.length base) by lia.
    apply substring_skip.
Qed.

(** The test of line 89 decides the specification's predicate. *)
Lemma endsWith_lower_pdf name :
  endsWith (toLowerCase name) ".pdf" = true <-> has_pdf_suffix name.
Proof.
  rewrite endsWith_spec. split.
  - intros [base' Heq].
    assert (Hlen : String.length name = String.length base' + 4).
    { rewrite <- (toLowerCase_length name), Heq, append_length. reflexivity. }
    destruct (split_at (String.length base') name) as (a & b & -> & Ha); [lia|].
    exists a, b. split; [reflexivity|].
    rewrite toLowerCase_app in Heq.
    apply append_inj_length in Heq; [tauto|].
    now rewrite toLowerCase_length.
  - intros (base & ext & -> & Hext).
    exists (toLowerCase base). now rewrite toLowerCase_app, Hext.
Qed.

(** Under the [i] flag a character matches a lower-case letter of the
    pattern exactly when its lower-case form is that letter. *)
Lemma char_matches_ci_lower (p c : ascii) :
  In p dot_pdf -> char_matches_ci p c = Ascii.eqb (lower_char c) p.
Proof.
  intros Hp. simpl in Hp.
  destruct Hp as [<- | [<- | [<- | [<- | []]]]];
    destruct c as [[] [] [] [] [] [] [] []]; reflexivity.
Qed.

Lemma matches_to_end_lower pat s :
  (forall p, In p pat -> In p dot_pdf) ->
  matches_to_end pat s = true <-> toLowerCase s = string_of_list_ascii pat.
Proof.
  revert s; induction pat as [|p pat IH]; intros s Hsub.
  - destruct s; simpl; split; congruence.
  - destruct s as [|c s]; simpl; [split; congruence|].
    rewrite andb_true_iff, char_matches_ci_lower, Ascii.eqb_eq, IH.
    + split; [intros [-> ->]; reflexivity | intros [= -> ->]; easy].
    + intros q Hq. apply Hsub. now right.
    + apply Hsub. now left.
Qed.

Lemma matches_dot_pdf ext :
  matches_to_end dot_pdf ext = true <-> toLowerCase ext = ".pdf".
Proof. apply matches_to_end_lower. auto. Qed.

Lemma matches_to_end_length pat s :
  matches_to_end pat s = true -> String.length s = length pat.
Proof.
  revert s; induction pat as [|p pat IH]; intros [|c s]; simpl; try congruence.
  rewrite andb_true_iff. intros [_ H]. now rewrite (IH s H).
Qed.

(** The replacement removes a matching tail, whatever stands before it. *)
Lemma replace_suffix_ci_match pat base ext :
  matches_to_end pat ext = true ->
  replace_suffix_ci pat (base ++ ext) = base.
Proof.
  intros Hm. induction base as [|c base IH].
  - simpl. destruct ext; simpl in *; now rewrite Hm.
  - simpl. destruct (matches_to_end pat (String c (base ++ ext))) eqn:Hc.
    + apply matches_to_end_length in Hc. apply matches_to_end_length in Hm.
      simpl in Hc. rewrite append_length in Hc. lia.
    + now rewrite IH.
Qed.

(** Where no tail matches, nothing is replaced. *)
Lemma replace_suffix_ci_nomatch pat s :
  (forall base ext, s = base ++ ext -> matches_to_end pat ext = false) ->
  replace_suffix_ci pat s = s.
Proof.
  induction s as [|c s IH]; intros Hno.
  - simpl. now rewrite (Hno "" "").
  - simpl. rewrite (Hno "" (String c s)) by reflexivity.
    f_equal. apply IH. intros base ext ->.
    apply (Hno (String c base) ext). reflexivity.
Qed.

Lemma strip_pdf_suffix base ext :
  toLowerCase ext = ".pdf" ->
  replace_suffix_ci dot_pdf (base ++ ext) = base.
Proof. intros H. apply replace_suffix_ci_match, matches_dot_pdf, H. Qed.

Lemma strip_pdf_no_suffix name :
  ~ has_pdf_suffix name ->
  replace_suffix_ci dot_pdf name = name.
Proof.
  intros Hno. apply replace_suffix_ci_nomatch. intros base ext ->.
  destruct (matches_to_end dot_pdf ext) eqn:Hm; [|reflexivity].
  exfalso. apply Hno. exists base, ext. split; [reflexivity|].
  now apply matches_dot_pdf.
Qed.

End StrFacts.

(* ===================================================================== *)
(** ** Reasoning about completions *)
(* ===================================================================== *)

Section Completions.

Context {A : Type}.

Lemma yields_ret (a : A) (Q : A -> Prop) : Q a -> yields (ret a) Q.
Proof. intros HQ st a' st' [= <- _]. exact HQ. Qed.

Lemma yields_throw e (Q : A -> Prop) : yields (throw e) Q.
Proof. intros st a st' [=]. Qed.

Lemma yields_hang (Q : A -> Prop) : yields hang Q.
Proof. intros st a st' [=]. Qed.

Lemma yields_await (p : Outcome A) (Q : A -> Prop) :
  (forall a, p = Fulfilled a -> Q a) -> yields (await p) Q.
Proof. intros HQ st a st' [= -> _]. now apply HQ. Qed.

Lemma yields_try_catch (m : M A) h (Q : A -> Prop) :
  yields m Q -> (forall e, yields (h e) Q) -> yields (try_catch m h) Q.
Proof.
  intros Hm Hh st a st'. unfold try_catch.
  destruct (m st) as [[a0 | e |] st0] eqn:E; intros H.
  - injection H as <- <-. exact (Hm _ _ _ E).
  - exact (Hh _ _ _ _ H).
  - discriminate.
Qed.

Lemma yields_unhandled (m : M A) (Q : A -> Prop) :
  yields m Q -> yields (unhandled m) Q.
Proof.
  intros Hm st a st'. unfold unhandled.
  destruct (m st) as [[a0 | e |] st0] eqn:E; intros H; try discriminate.
  injection H as <- <-. exact (Hm _ _ _ E).
Qed.

Lemma yields_fst (m : M A) (Q : A -> Prop) st a :
  yields m Q -> fst (m st) = Fulfilled a -> Q a.
Proof.
  intros Hm H. destruct (m st) as [o st'] eqn:E. simpl in H. subst o.
  exact (Hm _ _ _ E).
Qed.

End Completions.

Lemma yields_bind {A B} (m : M A) (k : A -> M B) (P : A -> Prop) (Q : B -> Prop) :
  yields m P -> (forall a, P a -> yields (k a) Q) -> yields (bind m k) Q.
Proof.
  intros Hm Hk st b st'. unfold bind.
  destruct (m st) as [[a | e |] st0] eqn:E; intros H; try discriminate.
  exact (Hk a (Hm _ _ _ E) _ _ _ H).
Qed.

(** The same, when nothing needs to be known of the intermediate value. *)
Lemma yields_seq {A B} (m : M A) (k : A -> M B) (Q : B -> Prop) :
  (forall a, yields (k a) Q) -> yields (bind m k) Q.
Proof.
  intros Hk. apply yields_bind with (P := fun _ => True); [easy | auto].
Qed.

(** Unfold the combinators, then follow every branch. *)
Ltac unfold_code :=
  unfold settle, script_evaluated, bind, try_catch, unhandled, ret, throw, hang,
    await, get, modify in *.

Ltac branches := repeat (case_match; simplify_eq/=).

(* ===================================================================== *)
(** ** Every result is one of the two records *)
(* ===================================================================== *)

#[local] Hint Constructors conversion_result : core.

Lemma conversion_result_shape f r : conversion_result f r -> exactly_one_shape r.
Proof.
  intros [msg | unique blob].
  - right. unfold is_failure, is_success, failure; simpl.
    repeat split; try congruence. intros (_ & _ & [=]).
  - left. unfold is_failure, is_success, object_url; simpl. split.
    + split; [|split]; [|discriminate|reflexivity].
      change ("blob:" ++ unique)%string with (String "b" ("lob:" ++ unique)).
      discriminate.
    + intros (H & _). now apply H.
Qed.

Lemma conversion_result_file f r out :
  conversion_result f r -> file r = Some out -> exists blob, out = png_file f blob.
Proof.
  intros [msg | unique blob]; simpl; [discriminate|].
  intros [= <-]. now exists blob.
Qed.

Lemma conversion_result_success f r :
  conversion_result f r -> is_success r -> exists blob, file r = Some (png_file f blob).
Proof.
  intros [msg | unique blob] (_ & _ & Herr); simpl in *; [discriminate|].
  now exists blob.
Qed.

Lemma blob_promise_result w f canvas res :
  blob_promise w f canvas = Fulfilled res -> conversion_result f res.
Proof. unfold blob_promise. intros H. branches; auto. Qed.

Lemma blob_promise_simple_result w f canvas res :
  blob_promise_simple w f canvas = Fulfilled res -> conversion_result f res.
Proof. unfold blob_promise_simple. intros H. branches; auto. Qed.

Lemma settle_result f r :
  returned_result f r -> yields (settle r) (conversion_result f).
Proof.
  destruct r as [res | p]; simpl; intros H.
  - now apply yields_ret.
  - now apply yields_await.
Qed.

Lemma render_first_page_result w f lib :
  yields (render_first_page w f lib) (returned_result f).
Proof.
  unfold render_first_page.
  apply yields_seq; intros buf.
  apply yields_bind
    with (P := fun parsed => match parsed with
                             | inl res => conversion_result f res
                             | inr _ => True
                             end).
  { apply yields_try_catch.
    - apply yields_seq; intros pdf. now apply yields_ret.
    - intros e. apply yields_ret. auto. }
  intros [res | pdf] Hparsed.
  - now apply yields_ret.
  - do 3 (apply yields_seq; intros ?).
    case_match.
    + apply yields_seq; intros _. apply yields_ret. simpl.
      intros res. apply blob_promise_result.
    + apply yields_ret. simpl. auto.
Qed.

Lemma convertPdfToImage_result f w :
  yields (convertPdfToImage (AFile f) w) (conversion_result f).
Proof.
  unfold convertPdfToImage.
  apply yields_bind with (P := returned_result f); [|apply settle_result].
  apply yields_try_catch.
  - case_match; [|apply yields_ret; simpl; auto].
    apply yields_seq; intros [lib|].
    + apply render_first_page_result.
    + apply yields_ret. simpl. auto.
  - intros e. apply yields_ret. simpl. auto.
Qed.

Lemma convertPdfToImage_not_a_file w st :
  convertPdfToImage NotAFile w st = (Fulfilled (failure "Invalid file provided"), st).
Proof. reflexivity. Qed.

Lemma performConversion_result f w :
  yields (performConversion f w) (conversion_result f).
Proof.
  unfold performConversion.
  apply yields_seq; intros st.
  destruct (window st) as [win|]; [|apply yields_throw].
  destruct (win_pdfjsLib win) as [lib|]; [|apply yields_ret; auto].
  apply yields_bind with (P := returned_result f); [|apply settle_result].
  apply yields_try_catch.
  - do 5 (apply yields_seq; intros ?).
    case_match.
    + apply yields_seq; intros _. apply yields_ret. simpl.
      intros res. apply blob_promise_simple_result.
    + apply yields_ret. simpl. auto.
  - intros e. apply yields_ret. simpl. auto.
Qed.

Lemma convertPdfToImageSimple_result f w :
  yields (convertPdfToImageSimple f w) (conversion_result f).
Proof.
  unfold convertPdfToImageSimple.
  apply yields_try_catch; [|intros e; apply yields_ret; auto].
  apply yields_seq; intros st.
  destruct (window st) as [win|]; [|apply yields_ret; auto].
  destruct (win_pdfjsLib win) as [lib|]; [apply performConversion_result|].
  destruct (simpleScript w) as [e | defines | ev |].
  - apply yields_throw.
  - do 2 (apply yields_seq; intros ?). apply yields_unhandled.
    apply yields_seq; intros st'.
    destruct (global_lib st') as [lib|]; [|apply yields_throw].
    apply yields_seq; intros _. apply performConversion_result.
  - apply yields_seq; intros _. apply yields_ret. auto.
  - apply yields_seq; intros _. apply yields_hang.
Qed.

(* ===================================================================== *)
(** ** Acquisition attempts *)
(* ===================================================================== *)

Lemma new_events_app st st' evs :
  events st' = events st ++ evs -> new_events st st' = evs.
Proof. intros H. unfold new_events. rewrite H. apply drop_app_length. Qed.

Lemma new_events_same st : new_events st st = [].
Proof. apply new_events_app. now rewrite app_nil_r. Qed.

Lemma render_first_page_keeps_state w f lib : keeps_state (render_first_page w f lib).
Proof.
  intros st. unfold render_first_page. unfold_code. branches; reflexivity.
Qed.

Lemma performConversion_keeps_state f w : keeps_state (performConversion f w).
Proof.
  intros st. unfold performConversion. unfold_code. branches; reflexivity.
Qed.

(** What [loadPdfJs] attempts: nothing (engine cached, or a promise to
    attach to), the module import alone, or the import and then, the
    import having been rejected, the script. *)
Lemma loadPdfJs_events w st :
  exists evs,
    events (snd (loadPdfJs w st)) = events st ++ evs /\
    (evs = [] \/
     (pdfjsLib st = None /\ loadPromise st = None /\
      (evs = [module_import] \/
       (evs = [module_import; cdn_inject] /\ exists e, importModule w = Rejected e)))).
Proof.
  unfold loadPdfJs, loadPdfJs_executor. unfold_code.
  branches;
    try (exists []; rewrite ?app_nil_r; split; [reflexivity | now left]);
    try (exists [module_import]; split; [reflexivity | right; auto]);
    try (exists [module_import; cdn_inject]; rewrite <- ?app_assoc; split;
         [reflexivity | right; eauto 7]).
Qed.

(** The state a conversion leaves is the state its engine acquisition
    leaves: the render pipeline works on objects of its own. *)
Lemma convertPdfToImage_state f w st :
  isPdf f = true ->
  snd (convertPdfToImage (AFile f) w st) = snd (acquire_engine w st).
Proof.
  intros Hpdf. unfold convertPdfToImage. rewrite Hpdf.
  unfold bind at 1. unfold try_catch at 1. unfold bind at 1.
  destruct (acquire_engine w st) as [[[lib|] | e |] st1]; try reflexivity.
  pose proof (render_first_page_keeps_state w f lib st1) as Hk.
  destruct (render_first_page w f lib st1) as [[[res | p] | e |] st2];
    simpl in *; subst; reflexivity.
Qed.

Lemma convertPdfToImage_rejects_early input w st :
  match input with
  | NotAFile => True
  | AFile f => isPdf f = false
  end ->
  snd (convertPdfToImage input w st) = st.
Proof.
  destruct input as [|f]; [intros _ | intros Hpdf];
    unfold convertPdfToImage; rewrite ?Hpdf; reflexivity.
Qed.

(** What the engine acquisition of [convertPdfToImage] attempts, in
    order: first its own script injection, if [window.pdfjsLib] is not
    bound; then, only if that attempt failed, [loadPdfJs]. *)
Lemma acquire_engine_events w st :
  exists first rest,
    events (snd (acquire_engine w st)) = events st ++ first ++ rest /\
    (first = [] \/ (first = [cdn_inject] /\ global_lib st = None)) /\
    (rest = [] \/ rest = [module_import] \/
     (rest = [module_import; cdn_inject] /\ exists e, importModule w = Rejected e)) /\
    (rest <> [] ->
       global_lib st = None /\ pdfjsLib st = None /\ loadPromise st = None /\
       ((exists e, cdnScript w = DomFault e) \/ (exists ev, cdnScript w = ScriptFailed ev))).
Proof.
  unfold acquire_engine, cdn_script_promise, loadPdfJs, loadPdfJs_executor, global_lib.
  unfold_code.
  branches;
    first
      [ exists [], []; rewrite ?app_nil_r; simpl;
        split; [reflexivity | split; [now left | split; [now left | congruence]]]
      | exists [cdn_inject], []; rewrite ?app_nil_r, <- ?app_assoc; simpl;
        split; [reflexivity | split; [now right | split; [now left | congruence]]]
      | exists [], [module_import]; rewrite ?app_nil_r, <- ?app_assoc; simpl;
        split; [reflexivity | split; [now left | split; [auto | eauto 7]]]
      | exists [cdn_inject], [module_import]; rewrite ?app_nil_r, <- ?app_assoc; simpl;
        split; [reflexivity | split; [now right | split; [auto | eauto 7]]]
      | exists [], [module_import; cdn_inject]; rewrite ?app_nil_r, <- ?app_assoc; simpl;
        split; [reflexivity | split; [now left | split; [eauto 6 | eauto 7]]]
      | exists [cdn_inject], [module_import; cdn_inject];
        rewrite ?app_nil_r, <- ?app_assoc; simpl;
        split; [reflexivity | split; [now right | split; [eauto 6 | eauto 7]]] ].
Qed.

(* ===================================================================== *)
(** ** Result shape (C1) *)
(* ===================================================================== *)

(** C1.  Whatever the input, the state and the answers of the
    collaborators, a result returned by [convertPdfToImage], by
    [convertPdfToImageSimple] or by [performConversion] is a success (URL
    not empty, file present, no error) or a failure (error present, URL
    empty, no file), and not both.  The URL of a success is the one
    [URL.createObjectURL] returns, a [blob:] URL. *)
Theorem result_is_success_xor_failure :
  forall (input : Input) (f : File) (w : World) (st : State) (r : PdfConversionResult),
    fst (convertPdfToImage input w st) = Fulfilled r \/
    fst (convertPdfToImageSimple f w st) = Fulfilled r \/
    fst (performConversion f w st) = Fulfilled r ->
    exactly_one_shape r.
Proof.
  intros input f w st r [H | [H | H]].
  - destruct input as [|f'].
    + rewrite convertPdfToImage_not_a_file in H. injection H as <-.
      apply (conversion_result_shape f), result_failure.
    + apply (conversion_result_shape f').
      exact (yields_fst _ _ _ _ (convertPdfToImage_result f' w) H).
  - apply (conversion_result_shape f).
    exact (yields_fst _ _ _ _ (convertPdfToImageSimple_result f w) H).
  - apply (conversion_result_shape f).
    exact (yields_fst _ _ _ _ (performConversion_result f w) H).
Qed.

Lemma result_is_success_xor_failure_witness :
  fst (convertPdfToImage (AFile report_PDF) world_ok fresh_page)
  = Fulfilled {| imageUrl := "blob:https://app.example/5f0c1d2e";
                 file := Some {| file_name := "report.png"; file_type := "image/png";
                                 file_bits := png_bytes |};
                 error := None |}
  /\ exactly_one_shape
       {| imageUrl := "blob:https://app.example/5f0c1d2e";
          file := Some {| file_name := "report.png"; file_type := "image/png";
                          file_bits := png_bytes |};
          error := None |}.
Proof.
  split; [reflexivity|].
  apply (result_is_success_xor_failure (AFile report_PDF) report_PDF world_ok fresh_page).
  left. reflexivity.
Defined.

(* ===================================================================== *)
(** ** Wrong-type inputs (C3) *)
(* ===================================================================== *)

Lemma isPdf_false f :
  file_type f <> pdf_type -> ~ has_pdf_suffix (file_name f) -> isPdf f = false.
Proof.
  intros Htype Hname. unfold isPdf. apply orb_false_iff. split.
  - apply String.eqb_neq. exact Htype.
  - apply not_true_is_false. intros H. apply Hname.
    now apply StrFacts.endsWith_lower_pdf.
Qed.

Lemma photo_jpg_is_no_pdf :
  file_type photo_jpg <> pdf_type /\ ~ has_pdf_suffix (file_name photo_jpg).
Proof.
  split; [discriminate|].
  intros H. apply StrFacts.endsWith_lower_pdf in H. discriminate.
Qed.

(** C3, as worded, fails: [convertPdfToImageSimple] does not look at the
    type or the name of the file.  On [photo.jpg] of type [image/jpeg],
    on a page where the engine is not loaded yet, it injects the cdnjs
    script and hands the bytes to the engine; the result is not the
    wrong-type failure. *)
Lemma wrong_type_claim_fails_on_simple :
  ~ wrong_type_claim photo_jpg world_not_a_pdf fresh_page.
Proof.
  unfold wrong_type_claim, refuses_wrong_type.
  intros H. destruct photo_jpg_is_no_pdf as [Htype Hname].
  destruct (H Htype Hname) as [_ [Hres _]].
  vm_compute in Hres. discriminate.
Qed.

(** [convertPdfToImageSimple] has no message for a wrong type. *)
Lemma convertPdfToImageSimple_never_wrong_type f w st :
  fst (convertPdfToImageSimple f w st) <> Fulfilled wrong_type_result.
Proof.
  unfold convertPdfToImageSimple, performConversion, blob_promise_simple, global_lib,
    wrong_type_result.
  unfold_code.
  branches; intros Hres; simplify_eq/=;
    match goal with
    | H : _ = _ |- _ => solve [ clear -H; cbv in H; congruence ]
    end.
Qed.

(** Where [window.pdfjsLib] is not bound, [convertPdfToImageSimple]
    appends its script, whatever the file. *)
Lemma convertPdfToImageSimple_injects f w st :
  window st = Some {| win_pdfjsLib := None |} ->
  (forall e, simpleScript w <> DomFault e) ->
  new_events st (snd (convertPdfToImageSimple f w st)) = [simple_inject].
Proof.
  intros Hwin Hdom.
  assert (Hperf : forall s, snd (performConversion f w s) = s)
    by apply performConversion_keeps_state.
  unfold convertPdfToImageSimple, global_lib. unfold_code. rewrite Hwin. simpl.
  destruct (simpleScript w) as [e | defines | ev |]; [now destruct (Hdom e) | | |];
    simpl; try (apply new_events_app; reflexivity).
  destruct defines as [lib|]; simpl; rewrite Hwin; simpl;
    try match goal with
      | |- context [performConversion f w ?s] =>
          pose proof (Hperf s) as Hk;
          destruct (performConversion f w s) as [[r | e |] st']
      end; simpl in *; subst; apply new_events_app; reflexivity.
Qed.

(** Of the file, [performConversion] looks at the bytes and, to name
    its output, at the name; nothing else, and nothing of either to
    decide what to do. *)
Lemma performConversion_file_blind f g w st :
  arrayBuffer w g = arrayBuffer w f ->
  snd (performConversion g w st) = snd (performConversion f w st)
  /\ settles_alike (fst (performConversion g w st)) (fst (performConversion f w st)).
Proof.
  intros Hbuf.
  unfold performConversion, blob_promise_simple, settles_alike, same_but_name, failure.
  unfold_code. rewrite Hbuf.
  branches; repeat split; reflexivity.
Qed.

Lemma convertPdfToImageSimple_file_blind f g w st :
  arrayBuffer w g = arrayBuffer w f ->
  snd (convertPdfToImageSimple g w st) = snd (convertPdfToImageSimple f w st)
  /\ settles_alike (fst (convertPdfToImageSimple g w st))
       (fst (convertPdfToImageSimple f w st)).
Proof.
  intros Hbuf.
  assert (Hperf : forall s,
             snd (performConversion g w s) = snd (performConversion f w s)
             /\ settles_alike (fst (performConversion g w s))
                  (fst (performConversion f w s)))
    by (intros s; now apply performConversion_file_blind).
  unfold convertPdfToImageSimple, global_lib. unfold_code.
  destruct (window st) as [win|] eqn:Hwin;
    [|simpl; unfold same_but_name; simpl; auto].
  assert (Hcase : forall s,
    (match
       match performConversion g w s with
       | (Rejected e, st') =>
           (Fulfilled (failure ("Conversion failed: " ++ err_text e)), st')
       | r => r
       end
     with (o, st') => st' end)
    = (match
         match performConversion f w s with
         | (Rejected e, st') =>
             (Fulfilled (failure ("Conversion failed: " ++ err_text e)), st')
         | r => r
         end
       with (o, st') => st' end)
    /\ settles_alike
         (fst match performConversion g w s with
              | (Rejected e, st') =>
                  (Fulfilled (failure ("Conversion failed: " ++ err_text e)), st')
              | r => r
              end)
         (fst match performConversion f w s with
              | (Rejected e, st') =>
                  (Fulfilled (failure ("Conversion failed: " ++ err_text e)), st')
              | r => r
              end)).
  { intros s. destruct (Hperf s) as [Hs Ho].
    destruct (performConversion g w s) as [[rg | eg |] sg];
      destruct (performConversion f w s) as [[rf | ef |] sf];
      simpl in *; subst; try contradiction; split; try reflexivity; try exact Ho.
    unfold same_but_name; simpl. auto. }
  destruct (win_pdfjsLib win) as [lib|] eqn:Hlib.
  - destruct (Hcase st) as [H1 H2]. split; [|exact H2].
    revert H1. destruct (performConversion g w st) as [[? | ? |] ?];
      destruct (performConversion f w st) as [[? | ? |] ?]; simpl; auto.
  - destruct (simpleScript w) as [e | defines | ev |]; simpl;
      try (split; [reflexivity | unfold same_but_name; simpl; auto]).
    destruct defines as [lib|]; simpl; rewrite Hwin; simpl; rewrite ?Hlib;
      try (split; [reflexivity | exact I]).
    match goal with
    | |- context [performConversion f w ?s] => destruct (Hperf s) as [Hs Ho]; revert Hs Ho
    end.
    match goal with
    | |- context [performConversion f w ?s] =>
        destruct (performConversion g w s) as [[rg | eg |] sg];
        destruct (performConversion f w s) as [[rf | ef |] sf]
    end; simpl; intros Hs Ho; subst; try contradiction; split; auto.
Qed.

(** C3, amended.  [convertPdfToImage] returns the failure "File is not a
    PDF" for every file whose type is not [application/pdf] and whose
    name does not end in [.pdf] (case-insensitively), and leaves the
    state as it was: no import, no script, nothing recorded.
    [convertPdfToImageSimple] checks neither the type nor the name: on
    such a file it never returns that failure, it appends its script
    where [window.pdfjsLib] is not bound, and it behaves as on any other
    file with the same bytes, names and types whatever, up to the name
    given to the output file. *)
Theorem convertPdfToImage_refuses_wrong_type :
  forall (f : File) (w : World) (st : State),
    file_type f <> pdf_type ->
    ~ has_pdf_suffix (file_name f) ->
    convertPdfToImage (AFile f) w st = (Fulfilled wrong_type_result, st)
    /\ refuses_wrong_type (convertPdfToImage (AFile f) w) st
    /\ fst (convertPdfToImageSimple f w st) <> Fulfilled wrong_type_result
    /\ (window st = Some {| win_pdfjsLib := None |} ->
        (forall e, simpleScript w <> DomFault e) ->
        new_events st (snd (convertPdfToImageSimple f w st)) = [simple_inject])
    /\ (forall g : File,
          arrayBuffer w g = arrayBuffer w f ->
          snd (convertPdfToImageSimple g w st) = snd (convertPdfToImageSimple f w st)
          /\ settles_alike (fst (convertPdfToImageSimple g w st))
               (fst (convertPdfToImageSimple f w st))).
Proof.
  intros f w st Htype Hname.
  assert (Heq : convertPdfToImage (AFile f) w st = (Fulfilled wrong_type_result, st)).
  { unfold convertPdfToImage. now rewrite (isPdf_false f Htype Hname). }
  split; [exact Heq|]. split; [|split; [|split]].
  - unfold refuses_wrong_type. rewrite Heq. simpl.
    split; [reflexivity | apply new_events_same].
  - apply convertPdfToImageSimple_never_wrong_type.
  - apply convertPdfToImageSimple_injects.
  - intros g. apply convertPdfToImageSimple_file_blind.
Qed.

Lemma convertPdfToImage_refuses_wrong_type_witness :
  (file_type photo_jpg <> pdf_type /\ ~ has_pdf_suffix (file_name photo_jpg))
  /\ convertPdfToImage (AFile photo_jpg) world_ok fresh_page
     = (Fulfilled wrong_type_result, fresh_page)
  /\ new_events fresh_page (snd (convertPdfToImageSimple photo_jpg world_ok fresh_page))
     = [simple_inject]
  /\ settles_alike (fst (convertPdfToImageSimple report_PDF world_ok fresh_page))
       (fst (convertPdfToImageSimple photo_jpg world_ok fresh_page)).
Proof.
  split; [exact photo_jpg_is_no_pdf|].
  destruct photo_jpg_is_no_pdf as [Htype Hname].
  pose proof (convertPdfToImage_refuses_wrong_type photo_jpg world_ok fresh_page
                Htype Hname) as (H1 & _ & _ & H4 & H5).
  split; [exact H1|]. split.
  - apply H4; [reflexivity | intros e; discriminate].
  - apply (H5 report_PDF). reflexivity.
Defined.

Example simple_entry_on_photo_jpg :
  fst (convertPdfToImageSimple photo_jpg world_not_a_pdf fresh_page)
  = Fulfilled (failure "Conversion error: InvalidPDFException: Invalid PDF structure.")
  /\ events (snd (convertPdfToImageSimple photo_jpg world_not_a_pdf fresh_page))
     = [simple_inject].
Proof. split; reflexivity. Qed.

(* ===================================================================== *)
(** ** The name of the output file (C8, C10) *)
(* ===================================================================== *)

(** On success, through either entry point, the file of the result is
    the one line 220 (line 355) builds from the input file. *)
Lemma success_file f w st r out :
  fst (convertPdfToImage (AFile f) w st) = Fulfilled r \/
  fst (convertPdfToImageSimple f w st) = Fulfilled r \/
  fst (performConversion f w st) = Fulfilled r ->
  file r = Some out ->
  exists blob, out = png_file f blob.
Proof.
  intros H Hout. apply (conversion_result_file f r); [|exact Hout].
  destruct H as [H | [H | H]].
  - exact (yields_fst _ _ _ _ (convertPdfToImage_result f w) H).
  - exact (yields_fst _ _ _ _ (convertPdfToImageSimple_result f w) H).
  - exact (yields_fst _ _ _ _ (performConversion_result f w) H).
Qed.

Lemma png_file_name_suffix f blob base ext :
  file_name f = (base ++ ext)%string ->
  Str.toLowerCase ext = ".pdf" ->
  file_name (png_file f blob) = (base ++ ".png")%string.
Proof.
  intros Hname Hext. unfold png_file; simpl.
  now rewrite Hname, StrFacts.strip_pdf_suffix.
Qed.

Lemma png_file_name_no_suffix f blob :
  ~ has_pdf_suffix (file_name f) ->
  file_name (png_file f blob) = (file_name f ++ ".png")%string.
Proof.
  intros Hno. unfold png_file; simpl.
  now rewrite StrFacts.strip_pdf_no_suffix.
Qed.

(** C8.  When a conversion succeeds, through [convertPdfToImage],
    [convertPdfToImageSimple] or [performConversion], the name of the
    output file is the name of the source with a trailing [.pdf], in any
    mix of cases, taken off and [.png] put on; a name without that
    ending keeps all of it before [.png].  For [report.PDF] the output
    is [report.png]. *)
Theorem output_name_strips_pdf_appends_png :
  forall (f : File) (w : World) (st : State) (r : PdfConversionResult) (out : File),
    fst (convertPdfToImage (AFile f) w st) = Fulfilled r \/
    fst (convertPdfToImageSimple f w st) = Fulfilled r \/
    fst (performConversion f w st) = Fulfilled r ->
    file r = Some out ->
    (forall base ext,
        file_name f = (base ++ ext)%string -> Str.toLowerCase ext = ".pdf" ->
        file_name out = (base ++ ".png")%string)
    /\ (~ has_pdf_suffix (file_name f) -> file_name out = (file_name f ++ ".png")%string)
    /\ (file_name f = "report.PDF" -> file_name out = "report.png").
Proof.
  intros f w st r out H Hout.
  destruct (success_file f w st r out H Hout) as [blob ->].
  split; [|split].
  - intros base ext. apply png_file_name_suffix.
  - apply png_file_name_no_suffix.
  - intros Hname. apply (png_file_name_suffix f blob "report" ".PDF"); [exact Hname|].
    reflexivity.
Qed.

Lemma output_name_strips_pdf_appends_png_witness :
  let out := {| file_name := "report.png"; file_type := "image/png";
                file_bits := png_bytes |} in
  let r := {| imageUrl := "blob:https://app.example/5f0c1d2e";
              file := Some out; error := None |} in
  fst (convertPdfToImage (AFile report_PDF) world_ok fresh_page) = Fulfilled r
  /\ file r = Some out
  /\ file_name out = "report.png".
Proof.
  intros out r. split; [reflexivity|]. split; [reflexivity|].
  apply (output_name_strips_pdf_appends_png report_PDF world_ok fresh_page r out).
  - left. reflexivity.
  - reflexivity.
  - reflexivity.
Defined.

Lemma png_file_name_length f blob :
  String.length (file_name f) <= String.length (file_name (png_file f blob)).
Proof.
  destruct (Str.endsWith (Str.toLowerCase (file_name f)) ".pdf") eqn:E.
  - apply StrFacts.endsWith_lower_pdf in E. destruct E as (base & ext & Hname & Hext).
    rewrite (png_file_name_suffix f blob base ext Hname Hext), Hname.
    rewrite !StrFacts.append_length.
    rewrite <- (StrFacts.toLowerCase_length ext), Hext. simpl. lia.
  - rewrite png_file_name_no_suffix.
    + rewrite StrFacts.append_length. lia.
    + intros H. apply StrFacts.endsWith_lower_pdf in H. congruence.
Qed.

(** C10.  The replacement takes off one [.pdf] ending and no more: a
    source named [base.pdf] (the ending in any mix of cases) gives
    [base.png] whatever [base] is, so [a.pdf.pdf] gives [a.pdf.png]; the
    output name is never shorter than the source name; and every name
    without the ending, accepted for its media type, is kept whole
    before [.png], so [doc] gives [doc.png]. *)
Theorem output_name_strips_one_suffix_only :
  forall (f : File) (w : World) (st : State) (r : PdfConversionResult) (out : File),
    fst (convertPdfToImage (AFile f) w st) = Fulfilled r \/
    fst (convertPdfToImageSimple f w st) = Fulfilled r \/
    fst (performConversion f w st) = Fulfilled r ->
    file r = Some out ->
    (forall base, file_name f = (base ++ ".pdf")%string ->
                  file_name out = (base ++ ".png")%string)
    /\ String.length (file_name f) <= String.length (file_name out)
    /\ (file_name f = "a.pdf.pdf" -> file_name out = "a.pdf.png")
    /\ (file_name f = "doc" -> file_name out = "doc.png")
    /\ (~ has_pdf_suffix (file_name f) ->
        file_name out = (file_name f ++ ".png")%string)
    /\ (forall base ext,
          file_name f = (base ++ ext)%string -> Str.toLowerCase ext = ".pdf" ->
          file_name out = (base ++ ".png")%string).
Proof.
  intros f w st r out H Hout.
  destruct (success_file f w st r out H Hout) as [blob ->].
  split; [|split; [|split; [|split; [|split]]]].
  - intros base Hname. apply (png_file_name_suffix f blob base ".pdf" Hname). reflexivity.
  - apply png_file_name_length.
  - intros Hname. apply (png_file_name_suffix f blob "a.pdf" ".pdf" Hname). reflexivity.
  - intros Hname. unfold png_file; simpl. rewrite Hname. reflexivity.
  - apply png_file_name_no_suffix.
  - intros base ext. apply png_file_name_suffix.
Qed.

Lemma output_name_strips_one_suffix_only_witness :
  (exists r out,
      fst (convertPdfToImage (AFile a_pdf_pdf) world_ok fresh_page) = Fulfilled r
      /\ file r = Some out /\ file_name out = "a.pdf.png")
  /\ (exists r out,
         isPdf doc_no_suffix = true
         /\ Str.endsWith (Str.toLowerCase (file_name doc_no_suffix)) ".pdf" = false
         /\ fst (convertPdfToImageSimple doc_no_suffix world_ok fresh_page) = Fulfilled r
         /\ file r = Some out /\ file_name out = "doc.png").
Proof.
  split.
  - eexists _, _. split; [reflexivity|]. split; [reflexivity|].
    pose proof (output_name_strips_one_suffix_only a_pdf_pdf world_ok fresh_page
                  _ _ (or_introl eq_refl) eq_refl) as (_ & _ & H & _).
    exact (H eq_refl).
  - eexists _, _. split; [reflexivity|]. split; [reflexivity|].
    split; [reflexivity|]. split; [reflexivity|].
    pose proof (output_name_strips_one_suffix_only doc_no_suffix world_ok fresh_page
                  _ _ (or_intror (or_introl eq_refl)) eq_refl) as (_ & _ & _ & _ & H & _).
    apply H. intros Hs. apply StrFacts.endsWith_lower_pdf in Hs. discriminate.
Defined.

(* ===================================================================== *)
(** ** The order of the acquisition strategies (C4) *)
(* ===================================================================== *)

(** What a call to [convertPdfToImage] adds to the recorded attempts. *)
Lemma convertPdfToImage_new_events input w st :
  exists first rest,
    new_events st (snd (convertPdfToImage input w st)) = first ++ rest /\
    (first = [] \/ (first = [cdn_inject] /\ global_lib st = None)) /\
    (rest = [] \/ rest = [module_import] \/
     (rest = [module_import; cdn_inject] /\ exists e, importModule w = Rejected e)) /\
    (rest <> [] ->
       global_lib st = None /\ pdfjsLib st = None /\ loadPromise st = None /\
       ((exists e, cdnScript w = DomFault e) \/ (exists ev, cdnScript w = ScriptFailed ev))).
Proof.
  destruct input as [|f]; [|destruct (isPdf f) eqn:Hpdf].
  - exists [], []. rewrite convertPdfToImage_rejects_early by exact I.
    rewrite new_events_same. repeat split; auto; congruence.
  - rewrite (convertPdfToImage_state f w st Hpdf).
    destruct (acquire_engine_events w st) as (first & rest & Hev & H).
    exists first, rest. split; [|exact H].
    apply new_events_app. exact Hev.
  - exists [], []. rewrite convertPdfToImage_rejects_early by exact Hpdf.
    rewrite new_events_same. repeat split; auto; congruence.
Qed.

(** C4, as worded, fails: on a page where [window.pdfjsLib] is not
    bound, [convertPdfToImage] injects the jsDelivr script before any
    module import; where the script loads, no import is attempted at
    all. *)
Lemma import_first_claim_fails :
  ~ import_first_claim (AFile report_PDF) world_ok fresh_page.
Proof.
  unfold import_first_claim. intros H.
  destruct (H [] (jsdelivr_script pinned_version) []) as [specifier []].
  reflexivity.
Qed.

(** C4, amended.  [convertPdfToImage] attempts, in this order: its own
    injection of the jsDelivr script, when [window.pdfjsLib] is not
    bound; then, only when that attempt has failed, what [loadPdfJs]
    attempts, which is the dynamic module import first and the script
    injection second, the latter only after the import was rejected. *)
Theorem convertPdfToImage_attempt_order :
  forall (input : Input) (w : World) (st : State),
  exists first rest,
    new_events st (snd (convertPdfToImage input w st)) = first ++ rest /\
    (first = [] \/ first = [cdn_inject]) /\
    (rest = [] \/ rest = [module_import] \/ rest = [module_import; cdn_inject]) /\
    (rest <> [] ->
       (exists e, cdnScript w = DomFault e) \/ (exists ev, cdnScript w = ScriptFailed ev)) /\
    (rest = [module_import; cdn_inject] -> exists e, importModule w = Rejected e) /\
    (forall evs, new_events st (snd (loadPdfJs w st)) = evs ->
       evs = [] \/ evs = [module_import] \/
       (evs = [module_import; cdn_inject] /\ exists e, importModule w = Rejected e)).
Proof.
  intros input w st.
  destruct (convertPdfToImage_new_events input w st)
    as (first & rest & Hev & Hfirst & Hrest & Hfailed).
  exists first, rest. split; [exact Hev|]. split; [tauto|]. split; [tauto|].
  split; [intros Hne; apply Hfailed in Hne; tauto|]. split.
  - intros ->. destruct Hrest as [[=] | [[=] | [_ He]]]. exact He.
  - intros evs <-. destruct (loadPdfJs_events w st) as (evs & Hevs & Hcases).
    rewrite (new_events_app _ _ _ Hevs). tauto.
Qed.

Lemma convertPdfToImage_attempt_order_witness :
  new_events fresh_page
    (snd (convertPdfToImage (AFile report_PDF) world_nothing_loads fresh_page))
  = [cdn_inject; module_import; cdn_inject]
  /\ exists first rest,
       new_events fresh_page
         (snd (convertPdfToImage (AFile report_PDF) world_nothing_loads fresh_page))
       = first ++ rest
       /\ (first = [] \/ first = [cdn_inject]).
Proof.
  split; [reflexivity|].
  destruct (convertPdfToImage_attempt_order (AFile report_PDF) world_nothing_loads fresh_page)
    as (first & rest & Hev & Hfirst & _).
  exists first, rest. split; [exact Hev | exact Hfirst].
Defined.

(* ===================================================================== *)
(** ** The loader after a failure (C6) and on a silent load (C9) *)
(* ===================================================================== *)

(** C6 fails on the source.  Where the import is rejected and the
    loader's script fires its error event, [loadPdfJs] rejects with that
    event object, leaves [isLoading] set, and keeps the rejected promise
    in [loadPromise]: a later call, whatever the collaborators would
    answer then, attempts nothing and returns the same rejection. *)
Theorem loadPdfJs_failure_is_kept :
  forall (w later : World) (st : State) (e ev : JsError),
    pdfjsLib st = None ->
    loadPromise st = None ->
    window st <> None ->
    importModule w = Rejected e ->
    fallbackScript w = ScriptFailed ev ->
    let st1 := snd (loadPdfJs w st) in
    fst (loadPdfJs w st) = Rejected ev
    /\ isLoading st1 = true
    /\ loadPromise st1 = Some (Rejected ev)
    /\ loadPdfJs later st1 = (Rejected ev, st1).
Proof.
  intros w later st e ev Hlib Hpromise Hwin Himport Hscript.
  unfold loadPdfJs, loadPdfJs_executor. unfold_code. simpl.
  rewrite Hlib, Hpromise, Himport. simpl.
  destruct (window st) as [win|] eqn:Ew; [|congruence].
  rewrite Hscript. simpl. rewrite Hlib. repeat split.
Qed.

Lemma loadPdfJs_failure_is_kept_witness :
  fst (loadPdfJs world_nothing_loads fresh_page) = Rejected script_error_event
  /\ loadPdfJs world_ok (snd (loadPdfJs world_nothing_loads fresh_page))
     = (Rejected script_error_event, snd (loadPdfJs world_nothing_loads fresh_page)).
Proof.
  assert (Hwin : window fresh_page <> None) by discriminate.
  pose proof (loadPdfJs_failure_is_kept world_nothing_loads world_ok fresh_page
                import_error script_error_event
                eq_refl eq_refl Hwin eq_refl eq_refl) as H.
  split; [apply H | apply H].
Defined.

(** C9.  In [loadPdfJs], after a rejected import, where the injected
    script fires its load event and [window.pdfjsLib] is still not
    bound, neither [resolve] nor [reject] is called: the promise stays
    pending, and so does a [convertPdfToImage] that waits for it. *)
Theorem loadPdfJs_load_without_global_never_settles :
  forall (w : World) (st : State) (e : JsError),
    pdfjsLib st = None ->
    loadPromise st = None ->
    window st = Some {| win_pdfjsLib := None |} ->
    importModule w = Rejected e ->
    fallbackScript w = ScriptLoaded None ->
    fst (loadPdfJs w st) = Pending
    /\ loadPromise (snd (loadPdfJs w st)) = Some Pending
    /\ forall f ev,
         isPdf f = true ->
         cdnScript w = ScriptFailed ev \/ cdnScript w = DomFault ev ->
         fst (convertPdfToImage (AFile f) w st) = Pending.
Proof.
  intros w st e Hlib Hpromise Hwin Himport Hscript.
  assert (Hload : fst (loadPdfJs w st) = Pending
                  /\ loadPromise (snd (loadPdfJs w st)) = Some Pending).
  { unfold loadPdfJs, loadPdfJs_executor, global_lib. unfold_code. simpl.
    rewrite Hlib, Hpromise, Himport. simpl. rewrite Hwin, Hscript. simpl.
    rewrite Hwin. simpl. split; reflexivity. }
  destruct Hload as [Hfst Hsnd]. split; [exact Hfst|]. split; [exact Hsnd|].
  intros f ev Hpdf Hcdn.
  unfold convertPdfToImage. rewrite Hpdf.
  unfold acquire_engine, cdn_script_promise. unfold_code.
  rewrite Hwin. simpl.
  destruct (loadPdfJs w (record_event cdn_inject st)) as [o st'] eqn:El.
  assert (Ho : o = Pending).
  { change o with (fst (o, st')). rewrite <- El.
    unfold loadPdfJs, loadPdfJs_executor, global_lib. unfold_code. simpl.
    rewrite Hlib, Hpromise, Himport. simpl. rewrite Hwin, Hscript. simpl.
    rewrite Hwin. reflexivity. }
  destruct Hcdn as [-> | ->]; simpl.
  - fold cdn_inject. rewrite El, Ho. reflexivity.
  - destruct (loadPdfJs w st) as [o0 st0]. simpl in Hfst. subst o0. reflexivity.
Qed.

Lemma loadPdfJs_load_without_global_never_settles_witness :
  fst (loadPdfJs world_fallback_binds_nothing fresh_page) = Pending
  /\ fst (convertPdfToImage (AFile report_PDF) world_fallback_binds_nothing fresh_page)
     = Pending.
Proof.
  pose proof (loadPdfJs_load_without_global_never_settles
                world_fallback_binds_nothing fresh_page import_error
                eq_refl eq_refl eq_refl eq_refl eq_refl) as (H1 & _ & H3).
  split; [exact H1|].
  apply (H3 report_PDF script_error_event); [reflexivity | left; reflexivity].
Defined.

(** The failure is kept for the whole session: with the CDN still out of
    reach, a second conversion fails although the module could now be
    imported; no second import is attempted. *)
Example second_conversion_after_failed_acquisition :
  let st1 := snd (convertPdfToImage (AFile report_PDF) world_nothing_loads fresh_page) in
  fst (convertPdfToImage (AFile report_PDF) world_nothing_loads fresh_page)
  = Fulfilled (failure "Failed to convert PDF: Failed to load PDF.js: undefined")
  /\ fst (convertPdfToImage (AFile report_PDF) world_cdn_down st1)
     = Fulfilled (failure "Failed to convert PDF: Failed to load PDF.js: undefined")
  /\ new_events st1 (snd (convertPdfToImage (AFile report_PDF) world_cdn_down st1))
     = [cdn_inject].
Proof. repeat split; reflexivity. Qed.

(* ===================================================================== *)
(** ** Two calls in a row (C7) *)
(* ===================================================================== *)

Lemma quiescent_fresh_page : quiescent fresh_page.
Proof. intros lib [=]. Qed.

Lemma acquire_engine_quiescent w st :
  quiescent st -> quiescent (snd (acquire_engine w st)).
Proof.
  unfold quiescent, acquire_engine, cdn_script_promise, loadPdfJs, loadPdfJs_executor,
    global_lib.
  unfold_code. intros Hq lib.
  branches; try (intros [=]; subst; try reflexivity); auto.
  all: first
         [ congruence
         | pose proof (Hq _ eq_refl); congruence
         | match goal with
           | Hp : loadPromise _ = Some (Fulfilled _), Hl : pdfjsLib _ = Some _ |- _ =>
               rewrite Hl; exact (Hq _ Hp)
           end ].
Qed.

Lemma convertPdfToImage_quiescent input w st :
  quiescent st -> quiescent (snd (convertPdfToImage input w st)).
Proof.
  intros Hq. destruct input as [|f]; [|destruct (isPdf f) eqn:Hpdf].
  - now rewrite convertPdfToImage_rejects_early.
  - rewrite (convertPdfToImage_state f w st Hpdf). now apply acquire_engine_quiescent.
  - now rewrite convertPdfToImage_rejects_early.
Qed.

(** An engine that the acquisition hands over is bound to
    [window.pdfjsLib] or cached in [pdfjsLib] afterwards. *)
Lemma acquire_engine_loaded w st lib :
  quiescent st ->
  fst (acquire_engine w st) = Fulfilled (Some lib) ->
  global_lib (snd (acquire_engine w st)) <> None \/
  pdfjsLib (snd (acquire_engine w st)) <> None.
Proof.
  unfold quiescent, acquire_engine, cdn_script_promise, loadPdfJs, loadPdfJs_executor,
    global_lib.
  unfold_code. intros Hq.
  branches; intros Hfst; simplify_eq/=;
    first [ left; congruence
          | right; congruence
          | pose proof (Hq _ eq_refl); congruence ].
Qed.

(** A conversion that succeeds got its engine from the acquisition. *)
Lemma success_acquired f w st r :
  fst (convertPdfToImage (AFile f) w st) = Fulfilled r ->
  is_success r ->
  isPdf f = true /\ exists lib, fst (acquire_engine w st) = Fulfilled (Some lib).
Proof.
  intros Hr (_ & Hfile & _).
  unfold convertPdfToImage in Hr.
  destruct (isPdf f) eqn:Hpdf.
  - split; [reflexivity|].
    unfold bind at 1, try_catch at 1, bind at 1 in Hr.
    destruct (acquire_engine w st) as [[[lib|] | e |] st1]; simpl in *.
    + now exists lib.
    + injection Hr as <-. now destruct Hfile.
    + injection Hr as <-. now destruct Hfile.
    + discriminate.
  - simpl in Hr. injection Hr as <-. now destruct Hfile.
Qed.

(** With an engine at hand, a conversion imports nothing; it injects
    the script once more only if [window.pdfjsLib] is not bound. *)
Lemma convertPdfToImage_with_engine input w st :
  global_lib st <> None \/ pdfjsLib st <> None ->
  new_events st (snd (convertPdfToImage input w st)) = [] \/
  (new_events st (snd (convertPdfToImage input w st)) = [cdn_inject]
   /\ global_lib st = None /\ pdfjsLib st <> None).
Proof.
  intros Hengine.
  destruct (convertPdfToImage_new_events input w st)
    as (first & rest & -> & Hfirst & _ & Hfailed).
  assert (Hrest : rest = []).
  { destruct rest as [|ev rest]; [reflexivity|].
    destruct Hfailed as (Hg & Hl & _); [discriminate|]. tauto. }
  subst rest. rewrite app_nil_r.
  destruct Hfirst as [-> | [-> Hg]]; [now left|].
  right. split; [reflexivity|]. split; [exact Hg|]. tauto.
Qed.

(** Whatever the imported module does to [window.pdfjsLib]: after a
    successful [convertPdfToImage], a second one never imports the
    module again, attempts nothing at all when the first call left the
    engine on [window.pdfjsLib], and otherwise injects the CDN script
    once more and nothing else. *)
Lemma second_conversion_attempts :
  forall (f : File) (w1 w2 : World) (st : State) (r : PdfConversionResult),
    quiescent st ->
    fst (convertPdfToImage (AFile f) w1 st) = Fulfilled r ->
    is_success r ->
    let st1 := snd (convertPdfToImage (AFile f) w1 st) in
    let st2 := snd (convertPdfToImage (AFile f) w2 st1) in
    (new_events st1 st2 = [] \/
     (new_events st1 st2 = [cdn_inject] /\ global_lib st1 = None /\ pdfjsLib st1 <> None))
    /\ (global_lib st1 <> None -> new_events st1 st2 = [])
    /\ count_imports (new_events st1 st2) = 0.
Proof.
  intros f w1 w2 st r Hq Hr Hsucc st1 st2.
  destruct (success_acquired f w1 st r Hr Hsucc) as [Hpdf [lib Hlib]].
  assert (Hengine : global_lib st1 <> None \/ pdfjsLib st1 <> None).
  { subst st1. rewrite (convertPdfToImage_state f w1 st Hpdf).
    exact (acquire_engine_loaded w1 st lib Hq Hlib). }
  pose proof (convertPdfToImage_with_engine (AFile f) w2 st1 Hengine) as Hcases.
  fold st2 in Hcases.
  split; [exact Hcases|]. split.
  - intros Hg. destruct Hcases as [H | (_ & Hnone & _)]; [exact H | contradiction].
  - destruct Hcases as [-> | [-> _]]; reflexivity.
Qed.

(** An engine bound to [window.pdfjsLib] is the one the acquisition
    hands over, and the state is not touched. *)
Lemma acquire_engine_bound w st lib :
  global_lib st = Some lib -> acquire_engine w st = (Fulfilled (Some lib), st).
Proof.
  unfold global_lib. intros Hlib.
  destruct (window st) as [win|] eqn:Hwin; [|discriminate].
  unfold acquire_engine. unfold_code. now rewrite Hwin, Hlib.
Qed.

(** Where the imported module binds [window.pdfjsLib], the acquisition
    keeps the cached engine on the window, and the engine it hands over
    is the one it leaves bound there. *)
Lemma acquire_engine_on_window w st :
  importBindsGlobal w = true ->
  quiescent st ->
  engine_on_window st ->
  engine_on_window (snd (acquire_engine w st))
  /\ forall lib, fst (acquire_engine w st) = Fulfilled (Some lib) ->
                 global_lib (snd (acquire_engine w st)) = Some lib.
Proof.
  unfold quiescent, engine_on_window, acquire_engine, cdn_script_promise, loadPdfJs,
    loadPdfJs_executor, global_lib, bind_global.
  unfold_code. intros Hbinds Hq Hon. rewrite Hbinds.
  branches; (split; [intros Hlib | intros lib0 Hfst]); simplify_eq/=;
    first [ congruence
          | reflexivity
          | exfalso; apply Hon; congruence
          | pose proof (Hq _ eq_refl); congruence
          | auto ].
Qed.

(** The simple entry point leaves the variables of the loader alone. *)
Lemma convertPdfToImageSimple_keeps_loader f w st :
  pdfjsLib (snd (convertPdfToImageSimple f w st)) = pdfjsLib st
  /\ loadPromise (snd (convertPdfToImageSimple f w st)) = loadPromise st.
Proof.
  assert (Hperf : forall s, snd (performConversion f w s) = s)
    by apply performConversion_keeps_state.
  unfold convertPdfToImageSimple, global_lib. unfold_code.
  destruct (window st) as [win|] eqn:Hwin; [|simpl; split; reflexivity].
  destruct (win_pdfjsLib win) as [lib|] eqn:Hlib.
  - specialize (Hperf st).
    destruct (performConversion f w st) as [[r | e |] st']; simpl in *; subst st';
      split; reflexivity.
  - destruct (simpleScript w) as [e | defines | ev |]; simpl; try (split; reflexivity).
    destruct defines as [lib|]; simpl; rewrite Hwin; simpl; rewrite ?Hlib;
      try match goal with
        | |- context [performConversion f w ?s] =>
            pose proof (Hperf s) as Hk;
            destruct (performConversion f w s) as [[r | e |] st']
        end; simpl in *; subst; split; reflexivity.
Qed.

(** With the engine bound, the simple entry point changes nothing. *)
Lemma convertPdfToImageSimple_bound f w st lib :
  global_lib st = Some lib -> snd (convertPdfToImageSimple f w st) = st.
Proof.
  unfold global_lib. intros Hlib.
  destruct (window st) as [win|] eqn:Hwin; [|discriminate].
  pose proof (performConversion_keeps_state f w st) as Hk.
  unfold convertPdfToImageSimple. unfold_code. rewrite Hwin, Hlib.
  destruct (performConversion f w st) as [[r | e |] st']; simpl in *; now subst.
Qed.

Lemma convertPdfToImageSimple_on_window f w st :
  engine_on_window st -> engine_on_window (snd (convertPdfToImageSimple f w st)).
Proof.
  intros Hon. destruct (global_lib st) as [lib|] eqn:Hg.
  - now rewrite (convertPdfToImageSimple_bound f w st lib Hg).
  - intros Hlib. exfalso.
    rewrite (proj1 (convertPdfToImageSimple_keeps_loader f w st)) in Hlib.
    now apply (Hon Hlib).
Qed.

(** What holds of every state of a session. *)
Lemma session_state_invariant st :
  session_state st -> quiescent st /\ engine_on_window st.
Proof.
  induction 1 as [| input w st Hs [Hq Hon] Hbinds | f w st Hs [Hq Hon]].
  - split; [apply quiescent_fresh_page | intros H; now destruct H].
  - split; [now apply convertPdfToImage_quiescent|].
    destruct input as [|f]; [|destruct (isPdf f) eqn:Hpdf];
      rewrite ?convertPdfToImage_rejects_early by (exact I || exact Hpdf); auto.
    rewrite (convertPdfToImage_state f w st Hpdf).
    now apply acquire_engine_on_window.
  - split; [|now apply convertPdfToImageSimple_on_window].
    intros lib Hp.
    pose proof (convertPdfToImageSimple_keeps_loader f w st) as (Hl & Hpr).
    rewrite Hl. apply Hq. now rewrite <- Hpr.
Qed.

(** C7.  In a page session in which the imported module binds
    [window.pdfjsLib] when it is evaluated (as [pdfjs-dist/build/pdf.mjs]
    does), two [convertPdfToImage] calls in a row on the same file, the
    first of them successful, acquire the engine once: the second call
    attempts nothing (no script, no import) and leaves the state as it
    is; it is handed the very engine the first call was handed, which
    the first call left on [window.pdfjsLib].  Across both calls there
    is at most one module import, and at most one script injection
    unless the one import happened. *)
Theorem second_conversion_reuses_engine :
  forall (f : File) (w1 w2 : World) (st : State) (r : PdfConversionResult),
    session_state st ->
    importBindsGlobal w1 = true ->
    fst (convertPdfToImage (AFile f) w1 st) = Fulfilled r ->
    is_success r ->
    let st1 := snd (convertPdfToImage (AFile f) w1 st) in
    let st2 := snd (convertPdfToImage (AFile f) w2 st1) in
    reuse_claim f w1 w2 st
    /\ st2 = st1
    /\ new_events st1 st2 = []
    /\ (exists lib,
          fst (acquire_engine w1 st) = Fulfilled (Some lib)
          /\ global_lib st1 = Some lib
          /\ fst (acquire_engine w2 st1) = Fulfilled (Some lib))
    /\ count_imports (new_events st st2) <= 1
    /\ (count_injections (new_events st st2) <= 1
        \/ count_imports (new_events st st2) = 1).
Proof.
  intros f w1 w2 st r Hs Hbinds Hr Hsucc st1 st2.
  destruct (session_state_invariant st Hs) as [Hq Hon].
  destruct (success_acquired f w1 st r Hr Hsucc) as [Hpdf [lib Hlib]].
  destruct (acquire_engine_on_window w1 st Hbinds Hq Hon) as [_ Hsame].
  assert (Hg : global_lib st1 = Some lib).
  { subst st1. rewrite (convertPdfToImage_state f w1 st Hpdf). now apply Hsame. }
  assert (Hst : st2 = st1).
  { subst st2. rewrite (convertPdfToImage_state f w2 st1 Hpdf).
    now rewrite (acquire_engine_bound w2 st1 lib Hg). }
  assert (Hnew : new_events st1 st2 = []).
  { rewrite Hst. apply new_events_same. }
  split; [intros _; exact Hnew|]. split; [exact Hst|]. split; [exact Hnew|].
  split.
  { exists lib. split; [exact Hlib|]. split; [exact Hg|].
    now rewrite (acquire_engine_bound w2 st1 lib Hg). }
  rewrite Hst. subst st1.
  destruct (convertPdfToImage_new_events (AFile f) w1 st)
    as (first & rest & -> & Hfirst & Hrest & _).
  unfold count_imports, count_injections.
  destruct Hfirst as [-> | [-> _]];
    destruct Hrest as [-> | [-> | [-> _]]]; simpl; split; auto; lia.
Qed.

Lemma second_conversion_reuses_engine_witness :
  let st1 := snd (convertPdfToImage (AFile report_PDF) world_cdn_down fresh_page) in
  let st2 := snd (convertPdfToImage (AFile report_PDF) world_ok st1) in
  new_events fresh_page st1 = [cdn_inject; module_import]
  /\ global_lib st1 = Some engine_module
  /\ st2 = st1
  /\ new_events st1 st2 = [].
Proof.
  intros st1 st2. split; [reflexivity|]. split; [reflexivity|].
  assert (Hs : is_success
                 {| imageUrl := "blob:https://app.example/5f0c1d2e";
                    file := Some {| file_name := "report.png"; file_type := "image/png";
                                    file_bits := png_bytes |};
                    error := None |}).
  { unfold is_success; simpl. repeat split; discriminate. }
  pose proof (second_conversion_reuses_engine report_PDF world_cdn_down world_ok
                fresh_page _ session_fresh eq_refl eq_refl Hs)
    as (_ & Hst & Hnew & _).
  split; [exact Hst | exact Hnew].
Defined.

(* ===================================================================== *)
(** ** Two calls at once (C5) *)
(* ===================================================================== *)

(** The stored promise is the one the first caller of [loadPdfJs] gets,
    and what the call has recorded extends what it had recorded when it
    first suspended. *)
Lemma loadPdfJs_first_caller w st :
  pdfjsLib st = None ->
  loadPromise st = None ->
  loadPromise (snd (loadPdfJs w st)) = Some (fst (loadPdfJs w st))
  /\ exists more,
       events (snd (loadPdfJs w st))
       = events (loadPdfJs_in_flight (fst (loadPdfJs w st)) st) ++ more.
Proof.
  intros Hlib Hpromise.
  unfold loadPdfJs, loadPdfJs_executor, loadPdfJs_in_flight. unfold_code.
  rewrite Hlib, Hpromise.
  branches; (split; [reflexivity|]);
    first [ exists []; rewrite app_nil_r; reflexivity
          | exists [cdn_inject]; reflexivity ].
Qed.

(** Where [window.pdfjsLib] is not bound, the acquisition of
    [convertPdfToImage] begins by appending its script. *)
Lemma acquire_engine_injects w st :
  window st = Some {| win_pdfjsLib := None |} ->
  (forall e, cdnScript w <> DomFault e) ->
  exists more, events (snd (acquire_engine w st)) = events st ++ cdn_inject :: more.
Proof.
  intros Hwin Hdom.
  unfold acquire_engine, cdn_script_promise, loadPdfJs, loadPdfJs_executor, global_lib.
  unfold_code. rewrite Hwin. simpl.
  destruct (cdnScript w) as [e | defines | ev |] eqn:Ecdn; [now destruct (Hdom e) | | |].
  all: branches; eexists; rewrite <- ?app_assoc; simpl; reflexivity.
Qed.

(** Two [convertPdfToImage] calls, the second issued while the first
    waits for its script: each appends a script element of its own. *)
Lemma concurrent_conversions_inject_twice f wA wB st :
  isPdf f = true ->
  window st = Some {| win_pdfjsLib := None |} ->
  cdnScript wA = ScriptSilent ->
  (forall e, cdnScript wB <> DomFault e) ->
  let mid := snd (convertPdfToImage (AFile f) wA st) in
  let final := snd (convertPdfToImage (AFile f) wB mid) in
  fst (convertPdfToImage (AFile f) wA st) = Pending
  /\ exists more, new_events st final = cdn_inject :: cdn_inject :: more.
Proof.
  intros Hpdf Hwin HA HB mid final. split.
  - unfold convertPdfToImage, acquire_engine, cdn_script_promise. unfold_code.
    rewrite Hpdf, Hwin, HA. reflexivity.
  - subst final mid. rewrite !convertPdfToImage_state by exact Hpdf.
    assert (Hmid : snd (acquire_engine wA st) = record_event cdn_inject st).
    { unfold acquire_engine, cdn_script_promise. unfold_code.
      rewrite Hwin, HA. reflexivity. }
    rewrite Hmid.
    destruct (acquire_engine_injects wB (record_event cdn_inject st) Hwin HB)
      as [more Hev].
    exists more. apply new_events_app.
    rewrite Hev. simpl. rewrite <- app_assoc. reflexivity.
Qed.

(** [convertPdfToImageSimple] is no different: its only guard is
    [window.pdfjsLib], unbound until a script has loaded. *)
Example concurrent_simple_conversions_inject_twice :
  let mid := snd (convertPdfToImageSimple report_PDF world_scripts_loading fresh_page) in
  fst (convertPdfToImageSimple report_PDF world_scripts_loading fresh_page) = Pending
  /\ events (snd (convertPdfToImageSimple report_PDF world_ok mid))
     = [simple_inject; simple_inject].
Proof. split; reflexivity. Qed.

(** C5, as worded, fails: two [convertPdfToImage] calls issued one after
    the other on a fresh page, the second while the script of the first
    is still loading, inject two script elements. *)
Lemma single_acquisition_claim_fails :
  ~ single_acquisition_claim report_PDF world_scripts_loading world_ok fresh_page.
Proof.
  unfold single_acquisition_claim. intros H.
  specialize (H eq_refl eq_refl eq_refl). vm_compute in H. discriminate.
Qed.

(** C5, amended.  Only [loadPdfJs] shares an acquisition in flight: a
    second call that arrives while the promise of the first is pending
    gets that same promise, with no import and no script of its own, so
    both callers see one settlement.  The entry points do not share
    their own injections: of two [convertPdfToImage] calls issued while
    [window.pdfjsLib] is unbound, each injects a script. *)
Theorem only_loadPdfJs_shares_acquisition :
  forall (f : File) (wA wB : World) (st : State),
    pdfjsLib st = None ->
    loadPromise st = None ->
    let promise := fst (loadPdfJs wA st) in
    let mid := loadPdfJs_in_flight promise st in
    loadPdfJs wB mid = (promise, mid)
    /\ loadPromise (snd (loadPdfJs wA st)) = Some promise
    /\ (exists more, events (snd (loadPdfJs wA st)) = events mid ++ more)
    /\ count_imports (new_events st mid) = 1
    /\ (isPdf f = true ->
        window st = Some {| win_pdfjsLib := None |} ->
        cdnScript wA = ScriptSilent ->
        (forall e, cdnScript wB <> DomFault e) ->
        exists more,
          new_events st
            (snd (convertPdfToImage (AFile f) wB (snd (convertPdfToImage (AFile f) wA st))))
          = cdn_inject :: cdn_inject :: more).
Proof.
  intros f wA wB st Hlib Hpromise promise mid.
  destruct (loadPdfJs_first_caller wA st Hlib Hpromise) as [Hstored Hext].
  split; [|split; [exact Hstored | split; [exact Hext | split]]].
  - unfold loadPdfJs. subst mid. unfold loadPdfJs_in_flight. simpl.
    rewrite Hlib. reflexivity.
  - subst mid. unfold loadPdfJs_in_flight.
    rewrite (new_events_app st _ [module_import]); reflexivity.
  - intros Hpdf Hwin HA HB.
    apply (concurrent_conversions_inject_twice f wA wB st Hpdf Hwin HA HB).
Qed.

Lemma only_loadPdfJs_shares_acquisition_witness :
  let promise := fst (loadPdfJs world_cdn_down fresh_page) in
  let mid := loadPdfJs_in_flight promise fresh_page in
  promise = Fulfilled engine_module
  /\ loadPdfJs world_nothing_loads mid = (Fulfilled engine_module, mid)
  /\ events mid = [module_import].
Proof.
  intros promise mid. split; [reflexivity|]. split; [|reflexivity].
  apply (only_loadPdfJs_shares_acquisition report_PDF world_cdn_down world_nothing_loads
           fresh_page eq_refl eq_refl).
Defined.

(* ===================================================================== *)
(** ** Faults that are not turned into a result (C2) *)
(* ===================================================================== *)

(** How far the guarantee goes.  [convertPdfToImageSimple] never
    rejects: its promise has no [reject]. *)
Lemma convertPdfToImageSimple_never_rejects f w st e :
  fst (convertPdfToImageSimple f w st) <> Rejected e.
Proof.
  unfold convertPdfToImageSimple, performConversion, blob_promise_simple, global_lib.
  unfold_code. branches; discriminate.
Qed.

(** [convertPdfToImage] rejects only with what [canvas.toBlob] throws:
    the promise of line 204 is returned, not awaited, inside the [try]. *)
Lemma convertPdfToImage_rejection_source input w st e :
  fst (convertPdfToImage input w st) = Rejected e ->
  exists canvas, toBlob w canvas "image/png" 95 = Rejected e.
Proof.
  unfold convertPdfToImage.
  destruct input as [|f]; [discriminate|].
  destruct (isPdf f); [|discriminate].
  unfold bind at 1, try_catch at 1, bind at 1.
  destruct (acquire_engine w st) as [[[lib|] | e0 |] st1]; try discriminate.
  unfold render_first_page, blob_promise. unfold_code.
  branches; intros Hrej; simplify_eq/=; eauto.
Qed.

(** Where the script of line 116 loads and [window.pdfjsLib] is still
    unbound, line 119 throws inside the [onload] handler; the promise
    of line 114 is never settled and the call never returns. *)
Lemma convertPdfToImage_load_without_global f w st :
  isPdf f = true ->
  window st = Some {| win_pdfjsLib := None |} ->
  cdnScript w = ScriptLoaded None ->
  fst (convertPdfToImage (AFile f) w st) = Pending.
Proof.
  intros Hpdf Hwin Hcdn.
  unfold convertPdfToImage, acquire_engine, cdn_script_promise, global_lib. unfold_code.
  rewrite Hpdf, Hwin, Hcdn. simpl. rewrite Hwin. reflexivity.
Qed.

(** C2 fails on the source, in two ways.  (1) The jsDelivr script loads
    but binds no [window.pdfjsLib]: the handler of line 117 throws, the
    fault is caught by nobody, and [convertPdfToImage] never returns a
    result; [convertPdfToImageSimple] does the same at line 285.
    (2) [canvas.toBlob] throws: the promise built at line 204 rejects,
    and as it is returned without [await] the [catch] of line 245 does
    not see it; [convertPdfToImage] rejects. *)
Theorem conversion_faults_escape :
  fst (convertPdfToImage (AFile report_PDF) world_scripts_bind_nothing fresh_page)
  = Pending
  /\ fst (convertPdfToImageSimple report_PDF world_scripts_bind_nothing fresh_page)
     = Pending
  /\ fst (convertPdfToImage (AFile report_PDF) world_toBlob_throws fresh_page)
     = Rejected security_error.
Proof.
  split; [|split].
  - apply convertPdfToImage_load_without_global; reflexivity.
  - reflexivity.
  - reflexivity.
Qed.

(* ===================================================================== *)
(** ** Worker configuration *)
(* ===================================================================== *)

(** An engine that the jsDelivr script brings is given the worker of the
    same pinned version. *)
Lemma cdn_engine_worker f w st lib :
  isPdf f = true ->
  window st = Some {| win_pdfjsLib := None |} ->
  cdnScript w = ScriptLoaded (Some lib) ->
  workerSrc (snd (convertPdfToImage (AFile f) w st)) !! engine_id lib
  = Some (jsdelivr_worker pinned_version).
Proof.
  intros Hpdf Hwin Hcdn. rewrite (convertPdfToImage_state f w st Hpdf).
  unfold acquire_engine, cdn_script_promise, global_lib. unfold_code.
  rewrite Hwin, Hcdn. simpl. rewrite Hwin. simpl.
  apply lookup_insert_eq.
Qed.


(* ===================================================================== *)
(** ** Further properties: input validation and the ready engine *)
(* ===================================================================== *)

(** X1.  The test of lines 88-89 accepts a file exactly when its media
    type is [application/pdf] or its name ends in [.pdf] in any mix of
    cases; the two are alternatives, neither is needed for the other. *)
Theorem isPdf_by_type_or_name :
  forall f : File,
    isPdf f = true <-> file_type f = pdf_type \/ has_pdf_suffix (file_name f).
Proof.
  intros f. unfold isPdf, pdf_type.
  rewrite orb_true_iff, String.eqb_eq, StrFacts.endsWith_lower_pdf. reflexivity.
Qed.

Lemma isPdf_by_type_or_name_witness :
  (file_type report_PDF <> pdf_type /\ isPdf report_PDF = true)
  /\ (~ has_pdf_suffix (file_name doc_no_suffix) /\ isPdf doc_no_suffix = true).
Proof.
  split; split.
  - discriminate.
  - apply (isPdf_by_type_or_name report_PDF). right.
    exists "report", ".PDF". split; reflexivity.
  - intros H. apply StrFacts.endsWith_lower_pdf in H. discriminate.
  - apply (isPdf_by_type_or_name doc_no_suffix). left. reflexivity.
Defined.

(** X2.  Where there is no [window] (the module evaluated outside a
    browser), neither entry point attempts anything: [convertPdfToImage]
    reports that the library failed to load, without calling
    [loadPdfJs] although a module import needs no [window], and
    [convertPdfToImageSimple] reports that the window is not available.
    The shared state is left as it was. *)
Theorem without_window_nothing_is_attempted :
  forall (f : File) (w : World) (st : State),
    window st = None ->
    isPdf f = true ->
    convertPdfToImage (AFile f) w st
    = (Fulfilled (failure "PDF.js library failed to load"), st)
    /\ convertPdfToImageSimple f w st
       = (Fulfilled (failure "Window is not available"), st).
Proof.
  intros f w st Hwin Hpdf. split.
  - unfold convertPdfToImage, acquire_engine. unfold_code.
    rewrite Hpdf, Hwin. reflexivity.
  - unfold convertPdfToImageSimple. unfold_code. rewrite Hwin. reflexivity.
Qed.

Lemma without_window_nothing_is_attempted_witness :
  convertPdfToImage (AFile report_PDF) world_ok outside_browser
  = (Fulfilled (failure "PDF.js library failed to load"), outside_browser)
  /\ convertPdfToImageSimple report_PDF world_ok outside_browser
     = (Fulfilled (failure "Window is not available"), outside_browser).
Proof.
  apply (without_window_nothing_is_attempted report_PDF world_ok outside_browser);
    reflexivity.
Defined.

(** With the engine bound, a successful [performConversion] has gone
    through every stage with that engine. *)
Lemma performConversion_uses_bound_engine f w st lib r :
  global_lib st = Some lib ->
  fst (performConversion f w st) = Fulfilled r ->
  is_success r ->
  went_through w f lib 100 r.
Proof.
  unfold global_lib. intros Hlib.
  destruct (window st) as [win|] eqn:Hwin; [|discriminate].
  intros Hr (_ & Hfile & _). revert Hr.
  unfold performConversion, blob_promise_simple, went_through, png_file.
  unfold_code. rewrite Hwin, Hlib.
  branches; intros Hres; simplify_eq/=; try (now destruct Hfile).
  repeat match goal with u : unit |- _ => destruct u end.
  do 7 eexists. repeat split; eassumption.
Qed.

Lemma convertPdfToImage_uses_bound_engine f w st lib r :
  global_lib st = Some lib ->
  fst (convertPdfToImage (AFile f) w st) = Fulfilled r ->
  is_success r ->
  went_through w f lib 95 r.
Proof.
  intros Hlib Hr (_ & Hfile & _).
  pose proof (acquire_engine_bound w st lib Hlib) as Hacq.
  unfold convertPdfToImage in Hr.
  destruct (isPdf f); [|simpl in Hr; injection Hr as <-; now destruct Hfile].
  unfold bind at 1, try_catch at 1, bind at 1 in Hr. rewrite Hacq in Hr.
  revert Hr. unfold render_first_page, blob_promise, went_through, png_file.
  unfold_code.
  branches; intros Hr; simplify_eq/=; try (now destruct Hfile).
  repeat match goal with u : unit |- _ => destruct u end.
  do 7 eexists. repeat split; eassumption.
Qed.

(** X3.  With an engine already bound to [window.pdfjsLib], either
    entry point uses it as it is: no script, no import, no change to the
    worker configuration or to any module variable; and it is that
    engine the bytes are handed to: a success of either entry point has
    gone through every stage with it, and where it rejects the bytes,
    [convertPdfToImage] returns its parse failure and
    [convertPdfToImageSimple] the failure "Conversion error: " with the
    text of the rejection. *)
Theorem bound_engine_is_used_as_is :
  forall (input : Input) (f : File) (w : World) (st : State) (lib : Engine),
    global_lib st = Some lib ->
    snd (convertPdfToImage input w st) = st
    /\ snd (convertPdfToImageSimple f w st) = st
    /\ fst (acquire_engine w st) = Fulfilled (Some lib)
    /\ (forall r, fst (convertPdfToImage (AFile f) w st) = Fulfilled r ->
                  is_success r -> went_through w f lib 95 r)
    /\ (forall r, fst (convertPdfToImageSimple f w st) = Fulfilled r ->
                  is_success r -> went_through w f lib 100 r)
    /\ (forall buf err,
          arrayBuffer w f = Fulfilled buf ->
          getDocument w lib buf = Rejected err ->
          (isPdf f = true ->
           fst (convertPdfToImage (AFile f) w st)
           = Fulfilled (failure
               "Failed to parse PDF file. It may be corrupted or password protected."))
          /\ fst (convertPdfToImageSimple f w st)
             = Fulfilled (failure ("Conversion error: " ++ err_text err))).
Proof.
  intros input f w st lib Hlib.
  pose proof (acquire_engine_bound w st lib Hlib) as Hacq.
  pose proof Hlib as Hg. unfold global_lib in Hlib.
  destruct (window st) as [win|] eqn:Hwin; [|discriminate].
  split; [|split; [|split; [|split; [|split]]]].
  - destruct input as [|f']; [now apply convertPdfToImage_rejects_early|].
    destruct (isPdf f') eqn:Hpdf; [|now apply convertPdfToImage_rejects_early].
    rewrite (convertPdfToImage_state f' w st Hpdf), Hacq. reflexivity.
  - exact (convertPdfToImageSimple_bound f w st lib Hg).
  - now rewrite Hacq.
  - intros r. apply (convertPdfToImage_uses_bound_engine f w st lib r Hg).
  - intros r Hr Hs. apply (performConversion_uses_bound_engine f w st lib r Hg); [|exact Hs].
    revert Hr. unfold convertPdfToImageSimple. unfold_code. rewrite Hwin, Hlib.
    destruct (performConversion f w st) as [[r0 | e |] st'] eqn:Ep; simpl;
      intros Hr; try discriminate; [exact Hr|].
    injection Hr as <-. destruct Hs as (_ & Hfile & _). now destruct Hfile.
  - intros buf err Hbuf Hdoc. split.
    + intros Hpdf. unfold convertPdfToImage. rewrite Hpdf.
      unfold bind at 1, try_catch at 1, bind at 1. rewrite Hacq.
      unfold render_first_page. unfold_code. now rewrite Hbuf, Hdoc.
    + unfold convertPdfToImageSimple, performConversion. unfold_code.
      rewrite Hwin, Hlib. simpl. now rewrite Hwin, Hlib, Hbuf, Hdoc.
Qed.

Lemma bound_engine_is_used_as_is_witness :
  global_lib page_with_engine = Some engine_cdn
  /\ snd (convertPdfToImage (AFile report_PDF) world_nothing_loads page_with_engine)
     = page_with_engine
  /\ workerSrc (snd (convertPdfToImage (AFile report_PDF) world_nothing_loads
                       page_with_engine))
       !! engine_id engine_cdn = None.
Proof.
  split; [reflexivity|].
  pose proof (bound_engine_is_used_as_is (AFile report_PDF) report_PDF
                world_nothing_loads page_with_engine engine_cdn eq_refl) as (H & _).
  split; [exact H | rewrite H; reflexivity].
Defined.

(* ===================================================================== *)
(** ** Further properties: what a result tells *)
(* ===================================================================== *)

(** The acquisition of [convertPdfToImage] ends without an engine only
    where there is no [window]. *)
Lemma acquire_engine_none w st :
  fst (acquire_engine w st) = Fulfilled None -> window st = None.
Proof.
  unfold acquire_engine, cdn_script_promise, loadPdfJs, loadPdfJs_executor, global_lib.
  unfold_code. branches; intros Hfst; simplify_eq/=; reflexivity.
Qed.

(** Two strings that differ at some character are not equal. *)
Ltac strings_differ :=
  match goal with
  | H : _ = _ |- _ =>
      solve [ exfalso; clear -H; cbv in H; congruence ]
  end.

(** X4.  A successful [convertPdfToImage] has gone through every stage
    of the pipeline with the engine its acquisition handed over: the
    bytes read, the document parsed, page 1 at scale 2, a canvas
    context, the render, the PNG encoding at quality 0.95.  The file of
    the result holds the encoded blob, typed [image/png], and the URL is
    the object URL of that same blob. *)
Theorem success_went_through_every_stage :
  forall (f : File) (w : World) (st : State) (r : PdfConversionResult),
    fst (convertPdfToImage (AFile f) w st) = Fulfilled r ->
    is_success r ->
    exists lib,
      fst (acquire_engine w st) = Fulfilled (Some lib)
      /\ went_through w f lib 95 r.
Proof.
  intros f w st r Hr (_ & Hfile & _).
  unfold convertPdfToImage in Hr.
  destruct (isPdf f); [|simpl in Hr; injection Hr as <-; now destruct Hfile].
  unfold bind at 1, try_catch at 1, bind at 1 in Hr.
  destruct (acquire_engine w st) as [[[lib|] | e |] st1]; simpl in Hr;
    try (injection Hr as <-; now destruct Hfile); try discriminate.
  exists lib. split; [reflexivity|].
  revert Hr. unfold render_first_page, blob_promise, went_through, png_file.
  unfold_code.
  branches; intros Hr; simplify_eq/=; try (now destruct Hfile).
  repeat match goal with u : unit |- _ => destruct u end.
  do 7 eexists. repeat split; eassumption.
Qed.

Lemma success_went_through_every_stage_witness :
  exists r,
    fst (convertPdfToImage (AFile report_PDF) world_ok fresh_page) = Fulfilled r
    /\ is_success r
    /\ exists lib, went_through world_ok report_PDF lib 95 r.
Proof.
  eexists. split; [reflexivity|].
  assert (Hs : is_success
                 {| imageUrl := "blob:https://app.example/5f0c1d2e";
                    file := Some {| file_name := "report.png"; file_type := "image/png";
                                    file_bits := png_bytes |};
                    error := None |}).
  { unfold is_success; simpl. repeat split; discriminate. }
  split; [exact Hs|].
  destruct (success_went_through_every_stage report_PDF world_ok fresh_page _
              eq_refl Hs) as (lib & _ & H).
  exists lib. exact H.
Defined.

(** X5.  The same of the simple entry point, at quality 1.0 and with
    the engine found on [window.pdfjsLib]: a successful
    [performConversion], and so a successful [convertPdfToImageSimple],
    has gone through every stage. *)
Theorem simple_success_went_through_every_stage :
  forall (f : File) (w : World) (st : State) (r : PdfConversionResult),
    fst (convertPdfToImageSimple f w st) = Fulfilled r
    \/ fst (performConversion f w st) = Fulfilled r ->
    is_success r ->
    exists lib, went_through w f lib 100 r.
Proof.
  intros f w st r Hr (_ & Hfile & _).
  assert (Hperf : forall st0, fst (performConversion f w st0) = Fulfilled r ->
                              exists lib, went_through w f lib 100 r).
  { intros st0. unfold performConversion, blob_promise_simple, went_through, png_file.
    unfold_code.
    branches; intros Hres; simplify_eq/=; try (now destruct Hfile).
    repeat match goal with u : unit |- _ => destruct u end.
    do 8 eexists. repeat split; eassumption. }
  destruct Hr as [Hr | Hr]; [|exact (Hperf st Hr)].
  revert Hr. unfold convertPdfToImageSimple, global_lib. unfold_code.
  repeat (case_match; simplify_eq/=; try discriminate);
    intros Hr; simplify_eq/=; try (now destruct Hfile);
    match goal with
    | H : performConversion f w ?s = (Fulfilled r, _) |- _ =>
        apply (Hperf s); rewrite H; reflexivity
    end.
Qed.

Lemma simple_success_went_through_every_stage_witness :
  exists r,
    fst (convertPdfToImageSimple report_PDF world_ok fresh_page) = Fulfilled r
    /\ is_success r
    /\ exists lib, went_through world_ok report_PDF lib 100 r.
Proof.
  eexists. split; [reflexivity|].
  assert (Hs : is_success
                 {| imageUrl := "blob:https://app.example/5f0c1d2e";
                    file := Some {| file_name := "report.png"; file_type := "image/png";
                                    file_bits := png_bytes |};
                    error := None |}).
  { unfold is_success; simpl. repeat split; discriminate. }
  split; [exact Hs|].
  exact (simple_success_went_through_every_stage report_PDF world_ok fresh_page _
           (or_introl eq_refl) Hs).
Defined.

(** X6.  The [error] of a result of [convertPdfToImage] is one of its
    six literal messages, or the message of the outer [catch], which
    begins with "Failed to convert PDF", or the message of the [catch]
    in the [toBlob] callback, which begins with "Failed to create image
    file: ". *)
Theorem convertPdfToImage_error_messages :
  forall (input : Input) (w : World) (st : State) (r : PdfConversionResult) (msg : string),
    fst (convertPdfToImage input w st) = Fulfilled r ->
    error r = Some msg ->
    resilient_error msg.
Proof.
  intros input w st r msg Hr Hmsg.
  unfold resilient_error, resilient_messages.
  unfold convertPdfToImage in Hr.
  destruct input as [|f];
    [simpl in Hr; injection Hr as <-; injection Hmsg as <-; left; simpl; tauto|].
  destruct (isPdf f);
    [|simpl in Hr; injection Hr as <-; injection Hmsg as <-; left; simpl; tauto].
  unfold bind at 1, try_catch at 1, bind at 1 in Hr.
  destruct (acquire_engine w st) as [[[lib|] | e |] st1]; simpl in Hr.
  - revert Hr. unfold render_first_page, blob_promise. unfold_code.
    branches; intros Hr; simplify_eq/=;
      first [ left; simpl; tauto
            | right; left; eexists; reflexivity
            | right; right; eexists; reflexivity ].
  - injection Hr as <-; injection Hmsg as <-. left; simpl; tauto.
  - injection Hr as <-; injection Hmsg as <-. right; left. eexists; reflexivity.
  - discriminate.
Qed.

Lemma convertPdfToImage_error_messages_witness :
  fst (convertPdfToImage (AFile report_PDF) world_not_a_pdf fresh_page)
  = Fulfilled (failure
      "Failed to parse PDF file. It may be corrupted or password protected.")
  /\ resilient_error
       "Failed to parse PDF file. It may be corrupted or password protected.".
Proof.
  split; [reflexivity|].
  apply (convertPdfToImage_error_messages (AFile report_PDF) world_not_a_pdf fresh_page
           (failure "Failed to parse PDF file. It may be corrupted or password protected."));
    reflexivity.
Defined.

(** X7.  The [error] of a result of [convertPdfToImageSimple] or of
    [performConversion] is one of their five literal messages, or begins
    with "Conversion failed: " or "Conversion error: " followed by the
    text of the fault caught. *)
Theorem convertPdfToImageSimple_error_messages :
  forall (f : File) (w : World) (st : State) (r : PdfConversionResult) (msg : string),
    fst (convertPdfToImageSimple f w st) = Fulfilled r
    \/ fst (performConversion f w st) = Fulfilled r ->
    error r = Some msg ->
    simple_error msg.
Proof.
  intros f w st r msg Hr Hmsg.
  unfold simple_error, simple_messages.
  assert (Hperf : forall st0, fst (performConversion f w st0) = Fulfilled r ->
            In msg ["Window is not available"; "Failed to load PDF.js library";
                    "PDF.js not loaded"; "Canvas context not available";
                    "Failed to create image"]
            \/ (exists err, msg = ("Conversion failed: " ++ err_text err)%string)
            \/ (exists err, msg = ("Conversion error: " ++ err_text err)%string)).
  { intros st0. unfold performConversion, blob_promise_simple. unfold_code.
    branches; intros Hres; simplify_eq/=;
      first [ left; simpl; tauto
            | right; right; eexists; reflexivity ]. }
  destruct Hr as [Hr | Hr]; [|exact (Hperf st Hr)].
  revert Hr. unfold convertPdfToImageSimple, global_lib. unfold_code.
  repeat (case_match; simplify_eq/=; try discriminate);
    intros Hr; simplify_eq/=;
    first [ left; simpl; tauto
          | right; left; eexists; reflexivity
          | match goal with
            | H : performConversion f w ?s = (Fulfilled r, _) |- _ =>
                apply (Hperf s); rewrite H; reflexivity
            end ].
Qed.

Lemma convertPdfToImageSimple_error_messages_witness :
  fst (convertPdfToImageSimple photo_jpg world_not_a_pdf fresh_page)
  = Fulfilled (failure "Conversion error: InvalidPDFException: Invalid PDF structure.")
  /\ simple_error "Conversion error: InvalidPDFException: Invalid PDF structure.".
Proof.
  split; [reflexivity|].
  apply (convertPdfToImageSimple_error_messages photo_jpg world_not_a_pdf fresh_page
           (failure "Conversion error: InvalidPDFException: Invalid PDF structure."));
    [left; reflexivity | reflexivity].
Defined.

(** X8.  Each literal message of [convertPdfToImage] is reported for
    its own cause only: "File is not a PDF" when the test of lines 88-89
    fails; "PDF.js library failed to load" when there is no [window];
    the parse message when the engine rejects the bytes it was given;
    the canvas message when [getContext] yields null; the encoding
    message when [toBlob] hands null to its callback. *)
Theorem convertPdfToImage_messages_name_their_cause :
  forall (f : File) (w : World) (st : State) (r : PdfConversionResult),
    fst (convertPdfToImage (AFile f) w st) = Fulfilled r ->
    (error r = Some "File is not a PDF" -> isPdf f = false)
    /\ (error r = Some "PDF.js library failed to load" -> window st = None)
    /\ (error r = Some "Failed to parse PDF file. It may be corrupted or password protected." ->
        exists lib buf err,
          arrayBuffer w f = Fulfilled buf /\ getDocument w lib buf = Rejected err)
    /\ (error r = Some "Canvas context is not available" ->
        getContext w = Fulfilled None)
    /\ (error r = Some "Failed to create image from canvas" ->
        exists canvas, toBlob w canvas "image/png" 95 = Fulfilled None).
Proof.
  intros f w st r Hr.
  unfold convertPdfToImage in Hr.
  destruct (isPdf f) eqn:Hpdf;
    [|simpl in Hr; injection Hr as <-; repeat split; intros Hmsg;
      try reflexivity; strings_differ].
  unfold bind at 1, try_catch at 1, bind at 1 in Hr.
  pose proof (acquire_engine_none w st) as Hnone.
  destruct (acquire_engine w st) as [[[lib|] | e |] st1]; simpl in Hr.
  - revert Hr. unfold render_first_page, blob_promise. unfold_code.
    branches; intros Hr; simplify_eq/=;
      (repeat split; intros Hmsg; simplify_eq/=; try strings_differ; eauto).
  - injection Hr as <-. repeat split; intros Hmsg; simplify_eq/=;
      try strings_differ; auto.
  - injection Hr as <-. repeat split; intros Hmsg; simplify_eq/=; strings_differ.
  - discriminate.
Qed.

Lemma convertPdfToImage_messages_name_their_cause_witness :
  fst (convertPdfToImage (AFile report_PDF) world_not_a_pdf fresh_page)
  = Fulfilled (failure
      "Failed to parse PDF file. It may be corrupted or password protected.")
  /\ exists lib buf err,
       arrayBuffer world_not_a_pdf report_PDF = Fulfilled buf
       /\ getDocument world_not_a_pdf lib buf = Rejected err.
Proof.
  split; [reflexivity|].
  apply (convertPdfToImage_messages_name_their_cause report_PDF world_not_a_pdf
           fresh_page _ eq_refl).
  reflexivity.
Defined.

(* ===================================================================== *)
(** ** Further properties: rejections and progress *)
(* ===================================================================== *)

(** X9.  What a caller can see rejected.  [convertPdfToImage] rejects
    only with what [canvas.toBlob] throws; [convertPdfToImageSimple]
    never rejects; [performConversion] rejects only where there is no
    [window] (line 318) or with what [canvas.toBlob] throws. *)
Theorem rejections_come_from_toBlob :
  forall (input : Input) (f : File) (w : World) (st : State) (e : JsError),
    (fst (convertPdfToImage input w st) = Rejected e ->
     exists canvas, toBlob w canvas "image/png" 95 = Rejected e)
    /\ fst (convertPdfToImageSimple f w st) <> Rejected e
    /\ (fst (performConversion f w st) = Rejected e ->
        window st = None \/ exists canvas, toBlob w canvas "image/png" 100 = Rejected e).
Proof.
  intros input f w st e. split; [|split].
  - apply convertPdfToImage_rejection_source.
  - apply convertPdfToImageSimple_never_rejects.
  - unfold performConversion, blob_promise_simple. unfold_code.
    branches; intros Hrej; simplify_eq/=; eauto.
Qed.

Lemma rejections_come_from_toBlob_witness :
  fst (convertPdfToImage (AFile report_PDF) world_toBlob_throws fresh_page)
  = Rejected security_error
  /\ exists canvas, toBlob world_toBlob_throws canvas "image/png" 95
                    = Rejected security_error.
Proof.
  split; [reflexivity|].
  apply (rejections_come_from_toBlob (AFile report_PDF) report_PDF world_toBlob_throws
           fresh_page security_error).
  reflexivity.
Defined.

(** X10.  With the engine bound to [window.pdfjsLib] and collaborators
    that all answer, [convertPdfToImage] does not stay pending: it
    returns a result, or rejects with what [toBlob] threw. *)
Theorem convertPdfToImage_settles_when_collaborators_answer :
  forall (f : File) (w : World) (st : State) (lib : Engine),
    global_lib st = Some lib ->
    pipeline_answers w f 95 ->
    fst (convertPdfToImage (AFile f) w st) <> Pending.
Proof.
  intros f w st lib Hlib (Ha & Hd & Hp & Hv & Hc & Hr & Hb & Hu).
  unfold global_lib in Hlib.
  destruct (window st) as [win|] eqn:Hwin; [|discriminate].
  unfold convertPdfToImage.
  destruct (isPdf f); [|discriminate].
  unfold acquire_engine, render_first_page, blob_promise.
  unfold_code. simpl. rewrite Hwin, Hlib. unfold not in *.
  branches; intros Hpend; simplify_eq/=; eauto.
Qed.

Lemma convertPdfToImage_settles_when_collaborators_answer_witness :
  pipeline_answers world_ok report_PDF 95
  /\ fst (convertPdfToImage (AFile report_PDF) world_ok page_with_engine) <> Pending.
Proof.
  assert (Hans : pipeline_answers world_ok report_PDF 95).
  { unfold pipeline_answers; simpl. repeat split; intros; discriminate. }
  split; [exact Hans|].
  exact (convertPdfToImage_settles_when_collaborators_answer report_PDF world_ok
           page_with_engine engine_cdn eq_refl Hans).
Defined.

(** X11.  [convertPdfToImageSimple] needs more to settle: the callback
    of line 352 has no [try], so besides collaborators that answer, the
    [File] constructor and [URL.createObjectURL] must not throw; then,
    with the engine bound, it returns a result. *)
Theorem convertPdfToImageSimple_returns_when_collaborators_answer :
  forall (f : File) (w : World) (st : State) (lib : Engine),
    global_lib st = Some lib ->
    pipeline_answers w f 100 ->
    newFileFault w = None ->
    (forall blob err, createObjectURL w blob <> Rejected err) ->
    exists r, fst (convertPdfToImageSimple f w st) = Fulfilled r.
Proof.
  intros f w st lib Hlib (Ha & Hd & Hp & Hv & Hc & Hr & Hb & Hu) Hfile Hurl.
  unfold global_lib in Hlib.
  destruct (window st) as [win|] eqn:Hwin; [|discriminate].
  unfold convertPdfToImageSimple, performConversion, blob_promise_simple.
  unfold_code. rewrite Hwin, Hlib. simpl. rewrite Hwin, Hlib. unfold not in *.
  branches; eauto; exfalso; eauto.
Qed.

Lemma convertPdfToImageSimple_returns_when_collaborators_answer_witness :
  pipeline_answers world_ok report_PDF 100
  /\ exists r, fst (convertPdfToImageSimple report_PDF world_ok page_with_engine)
               = Fulfilled r.
Proof.
  assert (Hans : pipeline_answers world_ok report_PDF 100).
  { unfold pipeline_answers; simpl. repeat split; intros; discriminate. }
  split; [exact Hans|].
  apply (convertPdfToImageSimple_returns_when_collaborators_answer report_PDF world_ok
           page_with_engine engine_cdn eq_refl Hans eq_refl).
  intros blob err. discriminate.
Defined.

(* ===================================================================== *)
(** ** Further properties: the loader and the shared state *)
(* ===================================================================== *)

(** The executor caches an engine exactly when it fulfils its promise. *)
Lemma loadPdfJs_executor_cache w st :
  pdfjsLib st = None ->
  match fst (loadPdfJs_executor w st) with
  | Fulfilled lib => pdfjsLib (snd (loadPdfJs_executor w st)) = Some lib
  | _ => pdfjsLib (snd (loadPdfJs_executor w st)) = None
  end.
Proof.
  intros Hlib. unfold loadPdfJs_executor, global_lib. unfold_code.
  branches; simpl; auto.
Qed.

(** X12.  [loadPdfJs] is memoised for good: after one call, whatever
    came of it (an engine, a rejection, or a promise that stays
    pending), every later call returns that same settlement and changes
    nothing, whatever the collaborators would answer by then. *)
Theorem loadPdfJs_memoised :
  forall (w later : World) (st : State),
    let st1 := snd (loadPdfJs w st) in
    loadPdfJs later st1 = (fst (loadPdfJs w st), st1).
Proof.
  intros w later st. simpl.
  unfold loadPdfJs at 2 3 4.
  destruct (pdfjsLib st) as [lib|] eqn:Hlib.
  - simpl. unfold loadPdfJs. now rewrite Hlib.
  - destruct (loadPromise st) as [p|] eqn:Hp.
    + simpl. unfold loadPdfJs. now rewrite Hlib, Hp.
    + pose proof (loadPdfJs_executor_cache w (set_isLoading true st) Hlib) as Hc.
      destruct (loadPdfJs_executor w (set_isLoading true st)) as [o st'].
      simpl in *. unfold loadPdfJs. simpl.
      destruct o as [lib | e |]; rewrite Hc; reflexivity.
Qed.

Lemma loadPdfJs_memoised_witness :
  fst (loadPdfJs world_cdn_down fresh_page) = Fulfilled engine_module
  /\ loadPdfJs world_nothing_loads (snd (loadPdfJs world_cdn_down fresh_page))
     = (Fulfilled engine_module, snd (loadPdfJs world_cdn_down fresh_page)).
Proof.
  split; [reflexivity|].
  apply (loadPdfJs_memoised world_cdn_down world_nothing_loads fresh_page).
Defined.

(** X13.  A first [loadPdfJs] whose module import succeeds returns the
    imported module, caches it in [pdfjsLib], clears [isLoading], has
    attempted the import and nothing else, and points the worker of the
    module at the jsDelivr worker of the module's own version, or of
    version 3.11.174 when the module has no (or an empty) [version]. *)
Theorem loadPdfJs_import_success :
  forall (w : World) (st : State) (lib : Engine),
    pdfjsLib st = None ->
    loadPromise st = None ->
    importModule w = Fulfilled lib ->
    let st1 := snd (loadPdfJs w st) in
    fst (loadPdfJs w st) = Fulfilled lib
    /\ pdfjsLib st1 = Some lib
    /\ isLoading st1 = false
    /\ loadPromise st1 = Some (Fulfilled lib)
    /\ new_events st st1 = [module_import]
    /\ (forall v, engine_version lib = Some v -> v <> "" ->
                  workerSrc st1 !! engine_id lib = Some (jsdelivr_worker v))
    /\ (engine_version lib = None \/ engine_version lib = Some "" ->
        workerSrc st1 !! engine_id lib = Some (jsdelivr_worker "3.11.174")).
Proof.
  intros w st lib Hlib Hp Himport.
  unfold loadPdfJs, loadPdfJs_executor. unfold_code. simpl.
  rewrite Hlib, Hp, Himport. simpl.
  assert (Hw : forall st0,
             workerSrc (set_workerSrc lib (jsdelivr_worker (version_or_default lib)) st0)
               !! engine_id lib
             = Some (jsdelivr_worker (version_or_default lib))).
  { intros st0. simpl. apply lookup_insert_eq. }
  destruct (importBindsGlobal w); simpl;
    (repeat split;
     [ apply new_events_app; reflexivity
     | intros v Hv Hne; rewrite lookup_insert_eq; unfold version_or_default;
       rewrite Hv; apply String.eqb_neq in Hne; now rewrite Hne
     | intros [Hv | Hv]; rewrite lookup_insert_eq; unfold version_or_default;
       rewrite Hv; reflexivity ]).
Qed.

Lemma loadPdfJs_import_success_witness :
  workerSrc (snd (loadPdfJs world_cdn_down fresh_page)) !! engine_id engine_module
  = Some "https://cdn.jsdelivr.net/npm/pdfjs-dist@4.0.379/build/pdf.worker.min.js"
  /\ new_events fresh_page (snd (loadPdfJs world_cdn_down fresh_page)) = [module_import].
Proof.
  pose proof (loadPdfJs_import_success world_cdn_down fresh_page engine_module
                eq_refl eq_refl eq_refl) as (_ & _ & _ & _ & Hev & Hv & _).
  split; [|exact Hev].
  apply (Hv "4.0.379"); [reflexivity | discriminate].
Defined.

(** X14.  An engine brought by an injected script is given the worker
    that goes with the script: jsDelivr script and jsDelivr worker of
    version 3.11.174 in [convertPdfToImage], cdnjs script and cdnjs
    worker in [convertPdfToImageSimple]; the script is the only thing
    attempted. *)
Theorem injected_engine_gets_matching_worker :
  forall (f : File) (w : World) (st : State) (lib : Engine),
    isPdf f = true ->
    window st = Some {| win_pdfjsLib := None |} ->
    (cdnScript w = ScriptLoaded (Some lib) ->
     let st1 := snd (convertPdfToImage (AFile f) w st) in
     new_events st st1 = [InjectScript (jsdelivr_script "3.11.174")]
     /\ workerSrc st1 !! engine_id lib = Some (jsdelivr_worker "3.11.174")
     /\ global_lib st1 = Some lib)
    /\ (simpleScript w = ScriptLoaded (Some lib) ->
        let st1 := snd (convertPdfToImageSimple f w st) in
        new_events st st1 = [InjectScript cdnjs_script]
        /\ workerSrc st1 !! engine_id lib = Some cdnjs_worker
        /\ global_lib st1 = Some lib).
Proof.
  intros f w st lib Hpdf Hwin. split.
  - intros Hcdn. rewrite (convertPdfToImage_state f w st Hpdf).
    unfold acquire_engine, cdn_script_promise, global_lib. unfold_code.
    rewrite Hwin, Hcdn. simpl. rewrite Hwin. simpl.
    split; [apply new_events_app; reflexivity|].
    split; [apply lookup_insert_eq | now rewrite Hwin].
  - intros Hsimple.
    unfold convertPdfToImageSimple, global_lib. unfold_code.
    rewrite Hwin, Hsimple. simpl. rewrite Hwin. simpl.
    match goal with
    | |- context [performConversion f w ?s] =>
        pose proof (performConversion_keeps_state f w s) as Hk;
        destruct (performConversion f w s) as [[r | e |] st']
    end; simpl in *; subst st'; simpl;
      (split; [apply new_events_app; reflexivity|];
       split; [apply lookup_insert_eq | now rewrite Hwin]).
Qed.

Lemma injected_engine_gets_matching_worker_witness :
  workerSrc (snd (convertPdfToImage (AFile report_PDF) world_ok fresh_page))
    !! engine_id engine_cdn
  = Some "https://cdn.jsdelivr.net/npm/pdfjs-dist@3.11.174/build/pdf.worker.min.js"
  /\ workerSrc (snd (convertPdfToImageSimple report_PDF world_ok fresh_page))
       !! engine_id engine_cdnjs
     = Some "https://cdnjs.cloudflare.com/ajax/libs/pdf.js/3.11.174/pdf.worker.min.js".
Proof.
  pose proof (injected_engine_gets_matching_worker report_PDF world_ok fresh_page)
    as H.
  split.
  - apply (H engine_cdn eq_refl eq_refl). reflexivity.
  - apply (H engine_cdnjs eq_refl eq_refl). reflexivity.
Defined.


(** X15.  [convertPdfToImageSimple] keeps away from the loader: it
    never imports the module and leaves [pdfjsLib], [isLoading] and
    [loadPromise] alone; all it may attempt is one injection of the
    cdnjs script, and that only where [window.pdfjsLib] is not bound. *)
Theorem convertPdfToImageSimple_footprint :
  forall (f : File) (w : World) (st : State),
    let st1 := snd (convertPdfToImageSimple f w st) in
    pdfjsLib st1 = pdfjsLib st
    /\ isLoading st1 = isLoading st
    /\ loadPromise st1 = loadPromise st
    /\ (new_events st st1 = []
        \/ (new_events st st1 = [simple_inject]
            /\ window st <> None /\ global_lib st = None)).
Proof.
  intros f w st.
  assert (Hperf : forall s, snd (performConversion f w s) = s)
    by apply performConversion_keeps_state.
  unfold convertPdfToImageSimple, global_lib. unfold_code.
  destruct (window st) as [win|] eqn:Hwin;
    [|simpl; repeat split; left; apply new_events_same].
  destruct (win_pdfjsLib win) as [lib|] eqn:Hlib.
  - specialize (Hperf st).
    destruct (performConversion f w st) as [[r | e |] st']; simpl in *; subst st';
      repeat split; left; apply new_events_same.
  - destruct (simpleScript w) as [e | defines | ev |]; simpl.
    + repeat split. left. apply new_events_same.
    + destruct defines as [lib|]; simpl; rewrite Hwin; simpl; rewrite ?Hlib;
        try match goal with
          | |- context [performConversion f w ?s] =>
              pose proof (Hperf s) as Hk;
              destruct (performConversion f w s) as [[r | e |] st']
          end; simpl in *; subst;
        (repeat split; right; split; [apply new_events_app; reflexivity|];
         split; congruence).
    + repeat split. right. split; [apply new_events_app; reflexivity|].
      split; congruence.
    + repeat split. right. split; [apply new_events_app; reflexivity|].
      split; congruence.
Qed.

Lemma convertPdfToImageSimple_footprint_witness :
  let st1 := snd (convertPdfToImageSimple report_PDF world_ok fresh_page) in
  loadPromise st1 = None /\ pdfjsLib st1 = None
  /\ new_events fresh_page st1 = [simple_inject].
Proof.
  intros st1.
  pose proof (convertPdfToImageSimple_footprint report_PDF world_ok fresh_page)
    as (Hlib & _ & Hp & _).
  split; [exact Hp|]. split; [exact Hlib | reflexivity].
Defined.

(** What the acquisition of [convertPdfToImage] keeps of the state. *)
Lemma acquire_engine_keeps w st :
  let st1 := snd (acquire_engine w st) in
  (forall lib, pdfjsLib st = Some lib -> pdfjsLib st1 = Some lib)
  /\ (forall p, loadPromise st = Some p -> loadPromise st1 = Some p)
  /\ (forall lib, global_lib st = Some lib -> global_lib st1 = Some lib)
  /\ (window st = None <-> window st1 = None).
Proof.
  unfold acquire_engine, cdn_script_promise, loadPdfJs, loadPdfJs_executor, global_lib,
    bind_global.
  unfold_code.
  branches; repeat split; intros; simplify_eq/=; try congruence; auto.
Qed.

(** X16.  [convertPdfToImage] only adds to what is shared.  The record
    of attempts grows at its end; an engine cached in [pdfjsLib] stays
    cached; a promise stored in [loadPromise] stays stored (nothing ever
    clears it); an engine bound to [window.pdfjsLib] stays bound; and a
    state in which every fulfilled stored promise has its engine cached
    remains such a state. *)
Theorem convertPdfToImage_only_adds :
  forall (input : Input) (w : World) (st : State),
    let st1 := snd (convertPdfToImage input w st) in
    (exists more, events st1 = events st ++ more)
    /\ (forall lib, pdfjsLib st = Some lib -> pdfjsLib st1 = Some lib)
    /\ (forall p, loadPromise st = Some p -> loadPromise st1 = Some p)
    /\ (forall lib, global_lib st = Some lib -> global_lib st1 = Some lib)
    /\ (quiescent st -> quiescent st1).
Proof.
  intros input w st st1. subst st1.
  split; [|split; [|split; [|split]]]; try apply convertPdfToImage_quiescent.
  - destruct input as [|f]; [|destruct (isPdf f) eqn:Hpdf].
    + exists []. rewrite convertPdfToImage_rejects_early by exact I.
      now rewrite app_nil_r.
    + rewrite (convertPdfToImage_state f w st Hpdf).
      destruct (acquire_engine_events w st) as (first & rest & Hev & _).
      exists (first ++ rest). exact Hev.
    + exists []. rewrite convertPdfToImage_rejects_early by exact Hpdf.
      now rewrite app_nil_r.
  - destruct input as [|f]; [|destruct (isPdf f) eqn:Hpdf];
      rewrite ?convertPdfToImage_rejects_early by (exact I || exact Hpdf); auto.
    rewrite (convertPdfToImage_state f w st Hpdf). apply acquire_engine_keeps.
  - destruct input as [|f]; [|destruct (isPdf f) eqn:Hpdf];
      rewrite ?convertPdfToImage_rejects_early by (exact I || exact Hpdf); auto.
    rewrite (convertPdfToImage_state f w st Hpdf). apply acquire_engine_keeps.
  - destruct input as [|f]; [|destruct (isPdf f) eqn:Hpdf];
      rewrite ?convertPdfToImage_rejects_early by (exact I || exact Hpdf); auto.
    rewrite (convertPdfToImage_state f w st Hpdf). apply acquire_engine_keeps.
Qed.

Lemma convertPdfToImage_only_adds_witness :
  let st1 := snd (convertPdfToImage (AFile report_PDF) world_cdn_down fresh_page) in
  let st2 := snd (convertPdfToImage (AFile report_PDF) world_nothing_loads st1) in
  pdfjsLib st1 = Some engine_module
  /\ pdfjsLib st2 = Some engine_module
  /\ quiescent st2.
Proof.
  intros st1 st2. split; [reflexivity|].
  pose proof (convertPdfToImage_only_adds (AFile report_PDF) world_nothing_loads st1)
    as (_ & Hlib & _ & _ & Hq).
  split; [apply Hlib; reflexivity|].
  apply Hq.
  apply (convertPdfToImage_only_adds (AFile report_PDF) world_cdn_down fresh_page).
  exact quiescent_fresh_page.
Defined.


